(** * battlecode.api.views: scrimmage lifecycle and tournament bracket

    A shallow embedding of [battlecode/api/views.py].  The Django tables the
    views query are lists of rows (a [gmap] keyed by primary key for the
    scrimmage table, which the views read with [get(pk=...)] and write with
    [save()]); a view method is a function from the database and the request
    to the database after the call and the response.  Python exceptions are
    the [Raise] case of [result]. *)

From Stdlib Require Import ZArith Bool List Lia DecimalString Sorted.
From stdpp Require Import base option list gmap strings.

Open Scope Z_scope.

(** ** Python values, exceptions and responses *)

(** The values a request body can hold under a key. *)
Inductive PyVal : Type :=
| PyNone
| PyBool (b : bool)
| PyInt (z : Z)
| PyStr (s : string).

(** [v == 'literal'] for a string literal on the right. *)
Definition py_eq_str (v : PyVal) (lit : string) : bool :=
  match v with
  | PyStr s => bool_decide (s = lit)
  | _ => false
  end.

Inductive exn : Type :=
| KeyError (key : string)
| ValueError (msg : string)
| TypeError (msg : string)
| InternalError
| NotFound
| PermissionDenied
| NotAuthenticated.

(** [e.args] as the views read it: [raise InternalError] and the framework
    exceptions are raised without arguments. *)
Definition exn_args (e : exn) : list string :=
  match e with
  | KeyError k => [k]
  | ValueError m => [m]
  | TypeError m => [m]
  | InternalError | NotFound | PermissionDenied | NotAuthenticated => []
  end.

Inductive result (A : Type) : Type :=
| Ok (a : A)
| Raise (e : exn).
Arguments Ok {A} a.
Arguments Raise {A} e.

Definition bind {A B : Type} (r : result A) (k : A -> result B) : result B :=
  match r with
  | Ok a => k a
  | Raise e => Raise e
  end.

Notation "x <-! r ; k" := (bind r (fun x => k))
  (at level 100, r at next level, right associativity).

(** [','.join(l)] *)
Fixpoint join_comma (l : list string) : string :=
  match l with
  | [] => ""
  | [s] => s
  | s :: rest => s +:+ "," +:+ join_comma rest
  end.

(** ** Rows of the tables the views touch

    [battlecode.api.models] is not among the sources: a row has the columns
    the views read and write, under the names the views use. *)

Record League : Type := {
  league_pk : Z;
  active : bool;
  submissions_enabled : bool }.

Record Team : Type := {
  team_id : Z;
  team_league_id : Z;
  users : list Z;
  auto_accept_ranked : bool;
  auto_accept_unranked : bool;
  deleted : bool }.

Record Submission : Type := {
  submission_id : Z;
  submission_team_id : Z;
  submitted_at : Z }.

Record Map : Type := {
  map_pk : Z;
  map_league_id : Z;
  hidden : bool }.

Record Scrimmage : Type := {
  league : Z;
  red_team : Z;
  blue_team : Z;
  scrim_map : Z;
  ranked : bool;
  requested_by : Z;
  status : string;
  red_submission : option Z;
  blue_submission : option Z }.

(** Modelled from the spec: the tournament tables (Tournament, Round, Game and
    Match of [battlecode.api.models]), which no view in the sources reads.
    A game holds its matches in the order they were played, each with the
    replay file and the winning team. *)
Record Match : Type := {
  match_replay : string;
  match_winner : Z }.

Record Game : Type := {
  game_index : Z;
  game_red_team : Z;
  game_blue_team : Z;
  game_matches : list Match }.

Record Round : Type := {
  round_label : string;
  round_games : list Game }.

Record Tournament : Type := {
  tournament_pk : Z;
  tournament_hidden : bool;
  tournament_rounds : list Round }.

Record DB : Type := {
  leagues : list League;
  teams : list Team;
  submissions : list Submission;
  maps : list Map;
  scrimmages : gmap Z Scrimmage;
  tournaments : list Tournament }.

Definition set_scrimmages (db : DB) (m : gmap Z Scrimmage) : DB :=
  {| leagues := leagues db; teams := teams db; submissions := submissions db;
     maps := maps db; scrimmages := m; tournaments := tournaments db |}.

(** The database after an administrator has set the submissions toggle of
    every league to [b]. *)
Definition with_submissions_enabled (b : bool) (db : DB) : DB :=
  {| leagues :=
       (fun l => {| league_pk := league_pk l; active := active l;
                    submissions_enabled := b |}) <$> leagues db;
     teams := teams db; submissions := submissions db; maps := maps db;
     scrimmages := scrimmages db; tournaments := tournaments db |}.

(** ** Requests and responses *)

Record Request : Type := {
  method : string;
  user : option Z;          (* [request.user.id]; [None] when not authenticated *)
  data : gmap string PyVal }.

(** [permissions.SAFE_METHODS] *)
Definition SAFE_METHODS : list string := ["GET"; "HEAD"; "OPTIONS"].

Inductive Body : Type :=
| Message (m : string)                    (* [{'message': m}] *)
| SerializerErrors                        (* [serializer.errors] *)
| ScrimmageData (pk : Z) (s : Scrimmage). (* [serializer.data] *)

Record Response : Type := {
  status_code : Z;
  body : Body }.

(** A response that reports a failure: a client or server error status. *)
Definition is_error (r : Response) : Prop := 400 <= status_code r.

Definition HTTP_200_OK : Z := 200.
Definition HTTP_201_CREATED : Z := 201.
Definition HTTP_400_BAD_REQUEST : Z := 400.
Definition HTTP_404_NOT_FOUND : Z := 404.
Definition HTTP_500_INTERNAL_SERVER_ERROR : Z := 500.

(** ** Query sets *)

(** [order_by('-submitted_at')]: latest first; rows with equal time stamps
    keep their table order. *)
Fixpoint insert_desc (s : Submission) (l : list Submission) : list Submission :=
  match l with
  | [] => [s]
  | x :: rest =>
      if submitted_at x <=? submitted_at s then s :: x :: rest
      else x :: insert_desc s rest
  end.

Fixpoint order_by_submitted_at_desc (l : list Submission) : list Submission :=
  match l with
  | [] => []
  | s :: rest => insert_desc s (order_by_submitted_at_desc rest)
  end.

(** [s] is a most recent submission of team [t]: one of its submissions,
    with no submission of the team after it. *)
Definition most_recent (db : DB) (t : Z) (s : Submission) : Prop :=
  s ∈ submissions db /\ submission_team_id s = t /\
  forall x, x ∈ submissions db -> submission_team_id x = t ->
            submitted_at x <= submitted_at s.

(** [League.objects.get(pk=league_id)]; [None] stands for [DoesNotExist]. *)
Definition get_league (db : DB) (league_id : Z) : option League :=
  head (filter (fun l => league_pk l = league_id) (leagues db)).

(** What the framework answers when a view lets an exception escape: the
    API exceptions have their own status, anything else is a server error. *)
Definition status_of_exn (e : exn) : Z :=
  match e with
  | NotFound => 404
  | PermissionDenied => 403
  | NotAuthenticated => 401
  | KeyError _ | ValueError _ | TypeError _ | InternalError => 500
  end.

Definition status_of_outcome (o : result Response) : Z :=
  match o with
  | Ok r => status_code r
  | Raise e => status_of_exn e
  end.

(** ** ScrimmageViewSet *)

Module ScrimmageViewSet.

(** [Team.objects.filter(league_id=league_id, users__user_id=user_id)] *)
Definition teams_filter (db : DB) (league_id user_id : Z) : list Team :=
  filter (fun t => team_league_id t = league_id /\ user_id ∈ users t) (teams db).

Definition get_team (db : DB) (league_id user_id : Z) : result (option Team) :=
  match teams_filter db league_id user_id with
  | [] => Ok None                       (* len(teams) == 0 *)
  | [t] => Ok (Some t)                  (* teams[0] *)
  | _ :: _ :: _ => Raise InternalError  (* len(teams) > 1 *)
  end.

(** [Map.objects.filter(league_id=league_id, hidden=False).get(pk=map_id)],
    [None] on [Map.DoesNotExist]. *)
Definition get_map (db : DB) (league_id map_id : Z) : option Map :=
  head (filter (fun m => map_league_id m = league_id /\ hidden m = false
                         /\ map_pk m = map_id) (maps db)).

Definition get_submission (db : DB) (team_id : Z) : option Submission :=
  let submissions :=
    order_by_submitted_at_desc
      (filter (fun s => submission_team_id s = team_id) (submissions db)) in
  match submissions with
  | [] => None                          (* submissions.count() == 0 *)
  | s :: _ => Some s                    (* submissions[0] *)
  end.

(** The value of [self.kwargs['team']] after the call, or the exception. *)
Definition get_permissions (db : DB) (request : Request) (league_id : Z)
  : result (option Team) :=
  match get_league db league_id with
  | None => Raise NotFound
  | Some league =>
      if negb (bool_decide (method request ∈ SAFE_METHODS))
         && negb (active league && submissions_enabled league)
      then Raise PermissionDenied
      else
        match user request with
        | Some user_id =>
            team <-! get_team db league_id user_id;
            match team with
            | None => Raise PermissionDenied
            | Some t => Ok (Some t)
            end
        | None => Ok None
        end
  end.

(** [filter(Q(red_team=team) | Q(blue_team=team))]; the ordering by
    [-requested_at] plays no part in [get(pk=pk)]. *)
Definition get_queryset (db : DB) (team : Team) : gmap Z Scrimmage :=
  filter (fun kv => red_team kv.2 = team_id team \/ blue_team kv.2 = team_id team)
         (scrimmages db).

Definition message (code : Z) (m : string) : Response :=
  {| status_code := code; body := Message m |}.

Definition with_status (s : Scrimmage) (st : string) : Scrimmage :=
  {| league := league s; red_team := red_team s; blue_team := blue_team s;
     scrim_map := scrim_map s; ranked := ranked s; requested_by := requested_by s;
     status := st;
     red_submission := red_submission s; blue_submission := blue_submission s |}.

Definition with_submissions (s : Scrimmage) (r b : Submission) : Scrimmage :=
  {| league := league s; red_team := red_team s; blue_team := blue_team s;
     scrim_map := scrim_map s; ranked := ranked s; requested_by := requested_by s;
     status := status s;
     red_submission := Some (submission_id r);
     blue_submission := Some (submission_id b) |}.

(** [scrimmage.save()] *)
Definition save (db : DB) (pk : Z) (s : Scrimmage) : DB :=
  set_scrimmages db (<[pk := s]> (scrimmages db)).

Definition accept (db : DB) (league_id : Z) (team : Team) (pk : Z) : DB * Response :=
  match get_queryset db team !! pk with
  | None => (db, message HTTP_404_NOT_FOUND "Scrimmage does not exist.")
  | Some scrimmage =>
      if bool_decide (requested_by scrimmage = team_id team) then
        (db, message HTTP_400_BAD_REQUEST "Cannot accept an outgoing scrimmage.")
      else if negb (bool_decide (status scrimmage = "pending")) then
        (db, message HTTP_400_BAD_REQUEST "Scrimmage is not pending.")
      else
        let scrimmage := with_status scrimmage "queued" in
        match get_submission db (red_team scrimmage),
              get_submission db (blue_team scrimmage) with
        | Some red_submission, Some blue_submission =>
            let scrimmage := with_submissions scrimmage red_submission blue_submission in
            (save db pk scrimmage,
             {| status_code := HTTP_200_OK; body := ScrimmageData pk scrimmage |})
        | _, _ =>
            (db, message HTTP_500_INTERNAL_SERVER_ERROR
                         "Teams should have submissions if queued")
        end
  end.

Definition reject (db : DB) (league_id : Z) (team : Team) (pk : Z) : DB * Response :=
  match get_queryset db team !! pk with
  | None => (db, message HTTP_404_NOT_FOUND "Scrimmage does not exist.")
  | Some scrimmage =>
      if bool_decide (requested_by scrimmage = team_id team) then
        (db, message HTTP_400_BAD_REQUEST "Cannot reject an outgoing scrimmage.")
      else if negb (bool_decide (status scrimmage = "pending")) then
        (db, message HTTP_400_BAD_REQUEST "Scrimmage is not pending.")
      else
        let scrimmage := with_status scrimmage "rejected" in
        (db, {| status_code := HTTP_200_OK; body := ScrimmageData pk scrimmage |})
  end.

Definition cancel (db : DB) (league_id : Z) (team : Team) (pk : Z) : DB * Response :=
  match get_queryset db team !! pk with
  | None => (db, message HTTP_404_NOT_FOUND "Scrimmage does not exist.")
  | Some scrimmage =>
      if negb (bool_decide (requested_by scrimmage = team_id team)) then
        (db, message HTTP_400_BAD_REQUEST "Cannot cancel an incoming scrimmage.")
      else if negb (bool_decide (status scrimmage = "pending")) then
        (db, message HTTP_400_BAD_REQUEST "Scrimmage is not pending.")
      else
        let scrimmage := with_status scrimmage "cancelled" in
        (db, {| status_code := HTTP_200_OK; body := ScrimmageData pk scrimmage |})
  end.

(** The [data] dictionary [create] hands to the serializer; the last three
    keys are set only when the scrimmage is accepted on creation. *)
Record ScrimmageInput : Type := {
  data_league : Z;
  data_red_team : Z;
  data_blue_team : Z;
  data_map : Z;
  data_ranked : bool;
  data_requested_by : Z;
  data_red_submission : option Z;
  data_blue_submission : option Z;
  data_status : option string }.

(** The assignments made under "Check auto accept". *)
Definition queue_with (d : ScrimmageInput) (red_submission blue_submission : Submission)
  : ScrimmageInput :=
  {| data_league := data_league d;
     data_red_team := data_red_team d;
     data_blue_team := data_blue_team d;
     data_map := data_map d;
     data_ranked := data_ranked d;
     data_requested_by := data_requested_by d;
     data_red_submission := Some (submission_id red_submission);
     data_blue_submission := Some (submission_id blue_submission);
     data_status := Some "queued" |}.

(** Modelled from the spec: [ScrimmageSerializer.save()] of
    [battlecode.api.serializers], which is not among the sources.  It stores
    a new row under an unused primary key with the given fields; a scrimmage
    without a given status is created [pending] and one without given
    submissions has its submission references unset. *)
Definition new_row (d : ScrimmageInput) : Scrimmage :=
  {| league := data_league d;
     red_team := data_red_team d;
     blue_team := data_blue_team d;
     scrim_map := data_map d;
     ranked := data_ranked d;
     requested_by := data_requested_by d;
     status := default "pending" (data_status d);
     red_submission := data_red_submission d;
     blue_submission := data_blue_submission d |}.

Definition serializer_save (db : DB) (d : ScrimmageInput) : DB * (Z * Scrimmage) :=
  let pk := fresh (dom (scrimmages db)) in
  (save db pk (new_row d), (pk, new_row d)).

(** [request.data[key]] *)
Definition getitem (request : Request) (key : string) : result PyVal :=
  match data request !! key with
  | Some v => Ok v
  | None => Raise (KeyError key)
  end.

(** The condition under "Check auto accept". *)
Definition auto_accepts (ranked : bool) (that_team : Team) : bool :=
  (ranked && auto_accept_ranked that_team)
  || (negb ranked && auto_accept_unranked that_team).
Arguments auto_accepts : simpl never.

Section Create.

(** The builtin [int] and the validation of [ScrimmageSerializer] are taken
    as they come: nothing below depends on which values they accept. *)
Variable int : PyVal -> result Z.
Variable serializer_is_valid : DB -> ScrimmageInput -> bool.

(** The body of the [try] block of [create]. *)
Definition create_body (db : DB) (request : Request) (league_id : Z) (team : Team)
  : result (DB * Response) :=
  red_team_id <-! bind (getitem request "red_team") int;
  blue_team_id <-! bind (getitem request "blue_team") int;
  map_id <-! bind (getitem request "map") int;
  ranked_val <-! getitem request "ranked";
  let ranked := py_eq_str ranked_val "True" in
  (* Validate teams: [Some (red_team, blue_team, this_team, that_team)] *)
  validated <-!
    (if bool_decide (team_id team = blue_team_id) then
       red_team <-! get_team db league_id red_team_id;
       Ok (Some (red_team, Some team, team, red_team))
     else if bool_decide (team_id team = red_team_id) then
       blue_team <-! get_team db league_id blue_team_id;
       Ok (Some (Some team, blue_team, team, blue_team))
     else Ok None);
  match validated with
  | None =>
      Ok (db, message HTTP_400_BAD_REQUEST "Scrimmage does not include my team")
  | Some (_, _, _, None) | Some (None, _, _, _) | Some (_, None, _, _) =>
      (* [that_team is None]; the other team is [team] itself, so the last
         two patterns match nothing the branches above build *)
      Ok (db, message HTTP_404_NOT_FOUND "Requested team does not exist")
  | Some (Some red_team, Some blue_team, this_team, Some that_team) =>
      (* Validate map *)
      match get_map db league_id map_id with
      | None => Ok (db, message HTTP_404_NOT_FOUND "Requested map does not exist")
      | Some scrim_map =>
          let data :=
            {| data_league := league_id;
               data_red_team := team_id red_team;
               data_blue_team := team_id blue_team;
               data_map := map_pk scrim_map;
               data_ranked := ranked;
               data_requested_by := team_id this_team;
               data_red_submission := None;
               data_blue_submission := None;
               data_status := None |} in
          (* Validate submissions *)
          match get_submission db red_team_id, get_submission db blue_team_id with
          | Some red_submission, Some blue_submission =>
              (* Check auto accept *)
              let data :=
                if auto_accepts ranked that_team
                then queue_with data red_submission blue_submission
                else data in
              (* Create scrimmage *)
              if negb (serializer_is_valid db data) then
                Ok (db, {| status_code := HTTP_400_BAD_REQUEST;
                           body := SerializerErrors |})
              else
                let '(db', (pk, s)) := serializer_save db data in
                Ok (db', {| status_code := HTTP_201_CREATED;
                            body := ScrimmageData pk s |})
          | _, _ =>
              Ok (db, message HTTP_400_BAD_REQUEST "Teams do not have submissions")
          end
      end
  end.

(** [create]: the [try] block, and [except Exception as e] around it. *)
Definition create (db : DB) (request : Request) (league_id : Z) (team : Team)
  : DB * Response :=
  match create_body db request league_id team with
  | Ok r => r
  | Raise e =>
      let error :=
        if bool_decide (0 < length (exn_args e))%nat then join_comma (exn_args e)
        else "Unknown Error" in
      (db, message HTTP_400_BAD_REQUEST error)
  end.

End Create.

(** A request reaches a view method through [get_permissions] and the
    permission it returns, [IsAuthenticated]: the framework lets an exception
    of [get_permissions] escape, turns away a request without a user, and
    otherwise calls the method with [self.kwargs['team']]. *)
Definition dispatch (view : DB -> Z -> Team -> DB * Response)
  (db : DB) (request : Request) (league_id : Z) : DB * result Response :=
  match get_permissions db request league_id with
  | Raise e => (db, Raise e)
  | Ok None => (db, Raise NotAuthenticated)
  | Ok (Some team) => let '(db', r) := view db league_id team in (db', Ok r)
  end.

End ScrimmageViewSet.

(** ** TournamentViewSet *)

Module TournamentViewSet.

(** The viewset a method receives as [self]: the database behind its query
    set, and the primary key and format of the request. *)
Record View : Type := {
  view_db : DB;
  view_pk : Z;
  view_format : string }.

(** The shapes of the docstring of [bracket]. *)
Record GameJson : Type := {
  index : Z;
  red_team_json : Z;
  blue_team_json : Z;
  replays : list string;
  winner_ids : option (list Z);
  winner_id : option Z }.

Record RoundJson : Type := {
  round : string;
  games : list GameJson }.

(** [Tournament.objects.all().exclude(hidden=True)] *)
Definition queryset (db : DB) : list Tournament :=
  filter (fun t => tournament_hidden t <> true) (tournaments db).

(** The body of [bracket] is [pass]: the method returns [None]. *)
Definition bracket (self : View) : option (list RoundJson) := None.

(** *** The bracket of the specification

    The definitions below follow the words of the specification (and of the
    docstring of [bracket]), not the code: they are what [bracket] is
    compared with. *)

Fixpoint wins (t : Z) (winners : list Z) : nat :=
  match winners with
  | [] => 0
  | w :: rest => ((if Z.eqb w t then 1 else 0) + wins t rest)%nat
  end.

(** Best of three: the matches are read in the order played; the game is
    decided by the first match after which its winner has two wins. *)
Fixpoint spec_decide (seen rest : list Match) : list Match * option Z :=
  match rest with
  | [] => (seen, None)
  | m :: rest' =>
      let seen' := seen ++ [m] in
      if (2 <=? wins (match_winner m) (match_winner <$> seen'))%nat
      then (seen', Some (match_winner m))
      else spec_decide seen' rest'
  end.

Definition spec_game (format : string) (g : Game) : GameJson :=
  let '(prefix, winner) := spec_decide [] (game_matches g) in
  if bool_decide (format = "replay") then
    {| index := game_index g;
       red_team_json := game_red_team g; blue_team_json := game_blue_team g;
       replays := match_replay <$> prefix;
       winner_ids := Some (match_winner <$> prefix);
       winner_id := winner |}
  else
    {| index := game_index g;
       red_team_json := game_red_team g; blue_team_json := game_blue_team g;
       replays := match_replay <$> game_matches g;
       winner_ids := None;
       winner_id := winner |}.

Definition spec_bracket (self : View) : option (list RoundJson) :=
  match filter (fun t => tournament_pk t = view_pk self) (queryset (view_db self)) with
  | [] => None
  | t :: _ =>
      Some ((fun r => {| round := round_label r;
                         games := spec_game (view_format self) <$> round_games r |})
              <$> tournament_rounds t)
  end.

End TournamentViewSet.

(** ** Replies of the team, submission and map views *)

Inductive ReplyBody (A : Type) : Type :=
| ReplyMessage (m : string)     (* [{'message': m}] *)
| ReplyErrors                   (* [serializer.errors] *)
| ReplyEmpty                    (* [{}] *)
| ReplyData (a : A).            (* [serializer.data] *)
Arguments ReplyMessage {A} m.
Arguments ReplyErrors {A}.
Arguments ReplyEmpty {A}.
Arguments ReplyData {A} a.

Record Reply (A : Type) : Type := {
  reply_status : Z;
  reply_body : ReplyBody A }.
Arguments reply_status {A} r.
Arguments reply_body {A} r.

Definition HTTP_401_UNAUTHORIZED : Z := 401.
Definition HTTP_405_METHOD_NOT_ALLOWED : Z := 405.

Definition reply_message {A : Type} (code : Z) (m : string) : Reply A :=
  {| reply_status := code; reply_body := ReplyMessage m |}.

(** [request.data.get(key, None)] *)
Definition data_get (request : Request) (key : string) : PyVal :=
  default PyNone (data request !! key).

(** [v is None] *)
Definition is_None (v : PyVal) : bool :=
  match v with
  | PyNone => true
  | _ => false
  end.

(** The message of an [except Exception as e] clause. *)
Definition exn_message (e : exn) : string :=
  if bool_decide (0 < length (exn_args e))%nat then join_comma (exn_args e)
  else "Unknown Error".

(** The orders of [order_by('-submitted_at')] and of [order_by('id')]. *)
Definition later_first (a b : Submission) : Prop := submitted_at b <= submitted_at a.

(** ** PartialUpdateModelMixin *)

Module PartialUpdateModelMixin.

(** [update]: a PUT is refused; anything else goes to the [update] of the
    framework's mixin, [super_update]. *)
Definition update {A : Type} (super_update : DB -> Request -> DB * Reply A)
  (db : DB) (request : Request) : DB * Reply A :=
  if bool_decide (method request = "PUT") then
    (db, {| reply_status := HTTP_405_METHOD_NOT_ALLOWED; reply_body := ReplyEmpty |})
  else super_update db request.

End PartialUpdateModelMixin.

(** ** MapViewSet *)

Module MapViewSet.

(** [order_by('id')]: ascending; rows with equal ids keep their table order. *)
Fixpoint insert_by_id (m : Map) (l : list Map) : list Map :=
  match l with
  | [] => [m]
  | x :: rest =>
      if map_pk m <? map_pk x then m :: x :: rest
      else x :: insert_by_id m rest
  end.

Fixpoint order_by_id (l : list Map) : list Map :=
  match l with
  | [] => []
  | m :: rest => insert_by_id m (order_by_id rest)
  end.

(** [Map.objects.all().exclude(hidden=True).order_by('id')] *)
Definition queryset (db : DB) : list Map :=
  order_by_id (filter (fun m => hidden m <> true) (maps db)).

Definition get_permissions (db : DB) (request : Request) (league_id : Z) : result unit :=
  match get_league db league_id with
  | None => Raise NotFound
  | Some league => Ok tt                (* [permissions.AllowAny()] *)
  end.

Definition get_queryset (db : DB) (league_id : Z) : list Map :=
  filter (fun m => map_league_id m = league_id) (queryset db).

End MapViewSet.

(** ** SubmissionViewSet *)

Module SubmissionViewSet.

(** [Submission.objects.all().order_by('-submitted_at')] *)
Definition queryset (db : DB) : list Submission :=
  order_by_submitted_at_desc (submissions db).

(** The value of [self.kwargs['team']] after the call, or the exception. *)
Definition get_permissions (db : DB) (request : Request) (league_id : Z)
  : result (option Team) :=
  match get_league db league_id with
  | None => Raise NotFound
  | Some league =>
      if negb (bool_decide (method request ∈ SAFE_METHODS))
         && negb (active league && submissions_enabled league)
      then Raise PermissionDenied
      else
        match user request with
        | Some user_id =>
            let teams :=
              filter (fun t => team_league_id t = league_id /\ user_id ∈ users t)
                     (teams db) in
            if bool_decide (length teams = 0%nat) then Raise PermissionDenied
            else if bool_decide (1 < length teams)%nat then Raise InternalError
            else
              match teams with
              | t :: _ => Ok (Some t)       (* teams[0] *)
              | [] => Raise PermissionDenied (* excluded by the test on the length *)
              end
        | None => Ok None
        end
  end.

Definition get_queryset (db : DB) (team : Team) : list Submission :=
  filter (fun s => submission_team_id s = team_id team) (queryset db).

Definition latest (db : DB) (league_id : Z) (team : Team) : Reply Submission :=
  let submissions := get_queryset db team in
  match submissions with
  | [] =>                                  (* submissions.count() == 0 *)
      reply_message HTTP_404_NOT_FOUND "Team does not have any submissions"
  | s :: _ =>                              (* submissions[0] *)
      {| reply_status := HTTP_200_OK; reply_body := ReplyData s |}
  end.

End SubmissionViewSet.

(** ** TeamViewSet *)

Module TeamViewSet.

Definition get_permissions (db : DB) (request : Request) (league_id : Z) : result unit :=
  match get_league db league_id with
  | None => Raise NotFound
  | Some league =>
      if negb (bool_decide (method request ∈ SAFE_METHODS)) && negb (active league)
      then Raise PermissionDenied
      else Ok tt                        (* [IsAuthenticatedOrSafeMethods()] *)
  end.

(** [Team.objects.all().order_by('name').exclude(deleted=True)]; the methods
    below only count, filter and [get] it, in which the order plays no part. *)
Definition queryset (db : DB) : list Team :=
  filter (fun t => deleted t <> true) (teams db).

Definition get_queryset (db : DB) (league_id : Z) : list Team :=
  filter (fun t => team_league_id t = league_id) (queryset db).

(** [team.users.add(user_id)]: the members of a team form a set. *)
Definition users_add (user_id : Z) (t : Team) : Team :=
  {| team_id := team_id t; team_league_id := team_league_id t;
     users := if bool_decide (user_id ∈ users t) then users t
              else users t ++ [user_id];
     auto_accept_ranked := auto_accept_ranked t;
     auto_accept_unranked := auto_accept_unranked t;
     deleted := deleted t |}.

(** [team.users.remove(user_id)] followed by
    [team.deleted = team.users.count() == 0]. *)
Definition users_remove (user_id : Z) (t : Team) : Team :=
  let remaining := filter (fun u => u <> user_id) (users t) in
  {| team_id := team_id t; team_league_id := team_league_id t;
     users := remaining;
     auto_accept_ranked := auto_accept_ranked t;
     auto_accept_unranked := auto_accept_unranked t;
     deleted := bool_decide (length remaining = 0%nat) |}.

(** [team.save()]: the row with the primary key of [team] becomes [team]. *)
Definition save (db : DB) (team : Team) : DB :=
  {| leagues := leagues db;
     teams := (fun t => if bool_decide (team_id t = team_id team) then team else t)
                <$> teams db;
     submissions := submissions db; maps := maps db;
     scrimmages := scrimmages db; tournaments := tournaments db |}.

(** The message for an [op] that is none of the three: the names of the
    three, each between double quotes (character 34). *)
Definition invalid_op : string :=
  let q := String (Ascii.ascii_of_nat 34) EmptyString in
  "Invalid op: " +:+ q +:+ "join" +:+ q +:+ ", " +:+ q +:+ "leave" +:+ q
  +:+ ", " +:+ q +:+ "update" +:+ q.

(** The dictionary [create] hands to the serializer. *)
Record TeamInput : Type := {
  input_league : Z;
  input_name : PyVal;
  input_users : list Z }.

Section Views.

(** Two columns of the team table that the record [Team] does not carry, as
    functions of the primary key; no method below writes them. *)
Variable name : Z -> string.
Variable team_key : Z -> string.

(** The string a char column is compared with in [filter(name=value)]. *)
Variable char_value : PyVal -> string.

(** [TeamSerializer] and the [update] of the framework's mixin are taken as
    they come; [serializer_save] may raise. *)
Variable serializer_is_valid : DB -> TeamInput -> bool.
Variable serializer_save : DB -> TeamInput -> result (DB * Team).
Variable super_update : DB -> Request -> DB * Reply Team.

(** In the two methods below [user_id] is [request.user.id].  The source
    uses it both as the id of a user ([users__user_id], [user_id]) and as the
    key of a member ([users.add], [users.remove]): a member of a team is
    identified with the id of its user, as in [Team] above. *)

(** [create] *)
Definition create (db : DB) (request : Request) (user_id : Z) (league_id : Z)
  : DB * Reply Team :=
  let name_val := data_get request "name" in
  if is_None name_val then
    (db, reply_message HTTP_400_BAD_REQUEST "Team name required")
  else if bool_decide
            (0 < length (filter (fun t => user_id ∈ users t)
                                (get_queryset db league_id)))%nat then
    (db, reply_message HTTP_400_BAD_REQUEST "Already on a team in this league")
  else if bool_decide
            (0 < length (filter (fun t => name (team_id t) = char_value name_val)
                                (get_queryset db league_id)))%nat then
    (db, reply_message HTTP_400_BAD_REQUEST "Team with this name already exists")
  else
    let team := {| input_league := league_id;
                   input_name := data_get request "name";
                   input_users := [user_id] |} in
    if serializer_is_valid db team then
      match serializer_save db team with
      | Ok (db', row) =>
          (db', {| reply_status := HTTP_201_CREATED; reply_body := ReplyData row |})
      | Raise e =>
          (db, reply_message HTTP_500_INTERNAL_SERVER_ERROR (exn_message e))
      end
    else (db, {| reply_status := HTTP_400_BAD_REQUEST; reply_body := ReplyErrors |}).

(** [partial_update] *)
Definition partial_update (db : DB) (request : Request) (user_id : Z)
  (league_id : Z) (pk : Z) : DB * Reply Team :=
  match head (filter (fun t => team_id t = pk) (get_queryset db league_id)) with
  | None => (db, reply_message HTTP_404_NOT_FOUND "Team not found")
  | Some team =>
      let op := data_get request "op" in
      if negb (py_eq_str op "join" || py_eq_str op "leave" || py_eq_str op "update")
      then
        (db, reply_message HTTP_400_BAD_REQUEST invalid_op)
      else if py_eq_str op "join" then
        if bool_decide
             (0 < length (filter (fun t => user_id ∈ users t)
                                 (get_queryset db league_id)))%nat then
          (db, reply_message HTTP_400_BAD_REQUEST "Already on a team in this league")
        else if negb (py_eq_str (data_get request "team_key") (team_key (team_id team)))
        then (db, reply_message HTTP_400_BAD_REQUEST "Invalid team key")
        else if bool_decide (length (users team) = 4%nat) then
          (db, reply_message HTTP_400_BAD_REQUEST "Team has max number of users")
        else
          let team := users_add user_id team in
          (save db team, {| reply_status := HTTP_200_OK; reply_body := ReplyData team |})
      else if bool_decide
                (length (filter (fun u => u = user_id) (users team)) = 0%nat) then
        (db, reply_message HTTP_401_UNAUTHORIZED "User not on this team")
      else if py_eq_str op "leave" then
        let team := users_remove user_id team in
        (save db team, {| reply_status := HTTP_200_OK; reply_body := ReplyData team |})
      else PartialUpdateModelMixin.update super_update db request
  end.

End Views.

(** *** What the team table is expected to satisfy *)

(** The primary key identifies the row. *)
Definition unique_ids (db : DB) : Prop :=
  NoDup (team_id <$> teams db).

(** A deleted team has no members. *)
Definition deleted_are_empty (db : DB) : Prop :=
  forall t, t ∈ teams db -> deleted t = true -> users t = [].

(** A user is a member of a team once. *)
Definition members_once (db : DB) : Prop :=
  forall t, t ∈ teams db -> NoDup (users t).

(** A user is on at most one team of a league. *)
Definition one_team_per_league (db : DB) : Prop :=
  forall t1 t2 u,
    t1 ∈ teams db -> t2 ∈ teams db ->
    team_league_id t1 = team_league_id t2 ->
    u ∈ users t1 -> u ∈ users t2 -> t1 = t2.

(** A team has at most four members. *)
Definition at_most_four (db : DB) : Prop :=
  forall t, t ∈ teams db -> (length (users t) <= 4)%nat.

Definition team_invariant (db : DB) : Prop :=
  unique_ids db /\ deleted_are_empty db /\ members_once db
  /\ one_team_per_league db /\ at_most_four db.

End TeamViewSet.

(** ** Concrete leagues, used to run the views *)

Module Examples.
Import ScrimmageViewSet TournamentViewSet.

(** [int] on the payloads of a JSON or form body: integers, booleans and
    plain decimal strings. *)
Definition int_literal (v : PyVal) : result Z :=
  match v with
  | PyInt z => Ok z
  | PyBool b => Ok (if b then 1 else 0)
  | PyStr s =>
      match NilZero.int_of_string s with
      | Some d => Ok (Z.of_int d)
      | None => Raise (ValueError "invalid literal for int() with base 10")
      end
  | PyNone => Raise (TypeError "int() argument must be a string or a number")
  end.

(** A serializer that accepts every scrimmage it is given. *)
Definition always_valid (db : DB) (d : ScrimmageInput) : bool := true.

Definition league1 : League :=
  {| league_pk := 1; active := true; submissions_enabled := true |}.

Definition mk_team (id : Z) (members : list Z) (auto_ranked auto_unranked : bool) : Team :=
  {| team_id := id; team_league_id := 1; users := members;
     auto_accept_ranked := auto_ranked; auto_accept_unranked := auto_unranked;
     deleted := false |}.

Definition mk_submission (id team time : Z) : Submission :=
  {| submission_id := id; submission_team_id := team; submitted_at := time |}.

Definition map1 : Map := {| map_pk := 1; map_league_id := 1; hidden := false |}.

Definition mk_request (m : string) (u : Z) (fields : list (string * PyVal)) : Request :=
  {| method := m; user := Some u; data := list_to_map fields |}.

(** *** A pending scrimmage: team 1 has challenged team 2 *)

Definition team_R : Team := mk_team 1 [10] false false.
Definition team_B : Team := mk_team 2 [20] false false.

Definition pending7 : Scrimmage :=
  {| league := 1; red_team := 1; blue_team := 2; scrim_map := 1; ranked := true;
     requested_by := 1; status := "pending";
     red_submission := None; blue_submission := None |}.

(** Team 1 has uploaded submission 101 after submission 100. *)
Definition db_pending : DB :=
  {| leagues := [league1];
     teams := [team_R; team_B];
     submissions := [mk_submission 100 1 5; mk_submission 200 2 6;
                     mk_submission 101 1 9];
     maps := [map1];
     scrimmages := {[ 7 := pending7 ]};
     tournaments := [] |}.

Definition queued7 : Scrimmage :=
  {| league := 1; red_team := 1; blue_team := 2; scrim_map := 1; ranked := true;
     requested_by := 1; status := "queued";
     red_submission := Some 101; blue_submission := Some 200 |}.

Definition db_queued : DB := save db_pending 7 queued7.

(** The same league with submissions switched off. *)
Definition db_closed : DB := with_submissions_enabled false db_pending.

(** The same league, inactive, with submissions enabled. *)
Definition db_inactive : DB :=
  {| leagues := [ {| league_pk := 1; active := false; submissions_enabled := true |} ];
     teams := teams db_pending;
     submissions := submissions db_pending;
     maps := maps db_pending;
     scrimmages := scrimmages db_pending;
     tournaments := tournaments db_pending |}.

Definition patch_by_20 : Request := mk_request "PATCH" 20 [].

(** *** Team ids and user ids that differ

    User 3 is the member of team 2; team 3 is another team; no team or user
    has id 4 except that user 4 is the member of team 5. *)

Definition team_1 : Team := mk_team 1 [10] false false.
Definition team_2 : Team := mk_team 2 [3] true false.
Definition team_3 : Team := mk_team 3 [30] false false.
Definition team_5 : Team := mk_team 5 [4] false false.

Definition db_ids : DB :=
  {| leagues := [league1];
     teams := [team_1; team_2; team_3; team_5];
     submissions := [mk_submission 100 1 5; mk_submission 200 2 6;
                     mk_submission 300 3 7; mk_submission 500 5 8];
     maps := [map1];
     scrimmages := ∅;
     tournaments := [] |}.

Definition post_scrimmage (red blue : Z) (ranked_v : PyVal) : Request :=
  mk_request "POST" 10
    [("red_team", PyInt red); ("blue_team", PyInt blue); ("map", PyInt 1);
     ("ranked", ranked_v)].

(** *** A user on two teams: user 5 is a member of teams 2 and 3 *)

Definition db_two_teams : DB :=
  {| leagues := [league1];
     teams := [team_1; mk_team 2 [5] false false; mk_team 3 [5] false false];
     submissions := [mk_submission 100 1 5];
     maps := [map1];
     scrimmages := ∅;
     tournaments := [] |}.

(** *** A tournament with one round of three games *)

Definition won_by (replay : string) (winner : Z) : Match :=
  {| match_replay := replay; match_winner := winner |}.

Definition mk_game (i : Z) (ms : list Match) : Game :=
  {| game_index := i; game_red_team := 1; game_blue_team := 2; game_matches := ms |}.

Definition db_tournament : DB :=
  {| leagues := [league1];
     teams := [team_R; team_B];
     submissions := [];
     maps := [map1];
     scrimmages := ∅;
     tournaments :=
       [ {| tournament_pk := 1; tournament_hidden := false;
            tournament_rounds :=
              [ {| round_label := "3A";
                   round_games :=
                     [ mk_game 0 [won_by "replay/1.bc18" 1; won_by "replay/2.bc18" 1];
                       mk_game 1 [won_by "replay/4.bc18" 1; won_by "replay/5.bc18" 2;
                                  won_by "replay/6.bc18" 2];
                       mk_game 2 [won_by "replay/7.bc18" 1] ] |} ] |} ] |}.

Definition replay_view : View :=
  {| view_db := db_tournament; view_pk := 1; view_format := "replay" |}.

Definition website_view : View :=
  {| view_db := db_tournament; view_pk := 1; view_format := "website" |}.

End Examples.

(** ** Concrete teams, used to run the team, submission and map views *)

Module TeamExamples.
Import Examples TeamViewSet.

(** The name of team 1 is "alpha", of team 2 "beta", of any other team
    "other"; the key of team 1 is "key1", of any other team "key2". *)
Definition name_of (pk : Z) : string :=
  if pk =? 1 then "alpha" else if pk =? 2 then "beta" else "other".

Definition key_of (pk : Z) : string :=
  if pk =? 1 then "key1" else "key2".

(** The strings of the request are compared as they are. *)
Definition char_of (v : PyVal) : string :=
  match v with
  | PyStr s => s
  | _ => ""
  end.

(** A serializer that accepts nothing, and a mixin that changes nothing. *)
Definition never_valid (db : DB) (d : TeamInput) : bool := false.
Definition no_save (db : DB) (d : TeamInput) : result (DB * Team) := Raise InternalError.
Definition no_update (db : DB) (request : Request) : DB * Reply Team :=
  (db, {| reply_status := HTTP_200_OK; reply_body := ReplyEmpty |}).

(** Team 1 of league 1 has users 10 and 11, team 2 has user 20; user 30 is
    on no team. *)
Definition team_alpha : Team := mk_team 1 [10; 11] false false.
Definition team_beta : Team := mk_team 2 [20] false false.

Definition db_teams : DB :=
  {| leagues := [league1];
     teams := [team_alpha; team_beta];
     submissions := [mk_submission 100 1 5; mk_submission 200 2 6;
                     mk_submission 101 1 9];
     maps := [ {| map_pk := 2; map_league_id := 1; hidden := false |};
               {| map_pk := 1; map_league_id := 1; hidden := false |};
               {| map_pk := 3; map_league_id := 1; hidden := true |} ];
     scrimmages := ∅;
     tournaments := [] |}.

Definition join_request (key : string) : Request :=
  mk_request "PATCH" 30 [("op", PyStr "join"); ("team_key", PyStr key)].

Definition leave_request : Request :=
  mk_request "PATCH" 30 [("op", PyStr "leave")].

Definition partial_update_example (db : DB) (request : Request) (user_id pk : Z)
  : DB * Reply Team :=
  partial_update key_of no_update db request user_id 1 pk.

(** A serializer that accepts every team and stores it as team 9. *)
Definition any_valid (db : DB) (d : TeamInput) : bool := true.

Definition save_as_9 (db : DB) (d : TeamInput) : result (DB * Team) :=
  let row := {| team_id := 9; team_league_id := input_league d;
                users := input_users d;
                auto_accept_ranked := false; auto_accept_unranked := false;
                deleted := false |} in
  Ok ({| leagues := leagues db; teams := teams db ++ [row];
         submissions := submissions db; maps := maps db;
         scrimmages := scrimmages db; tournaments := tournaments db |}, row).

Definition create_request (team_name : string) : Request :=
  mk_request "POST" 30 [("name", PyStr team_name)].

Definition create_example (db : DB) (request : Request) (user_id : Z) : DB * Reply Team :=
  TeamViewSet.create name_of char_of any_valid save_as_9 db request user_id 1.

End TeamExamples.

(** * Properties *)

Import ScrimmageViewSet TournamentViewSet Examples.

(** Arithmetic on the status codes. *)
Ltac status_lia :=
  unfold HTTP_200_OK, HTTP_201_CREATED, HTTP_400_BAD_REQUEST, HTTP_404_NOT_FOUND,
    HTTP_500_INTERNAL_SERVER_ERROR in *; lia.

(** ** Query sets *)

Lemma head_insert_desc (a : Submission) (l : list Submission) :
  head (insert_desc a l) =
  Some (match head l with
        | None => a
        | Some x => if submitted_at x <=? submitted_at a then a else x
        end).
Proof.
  destruct l as [|x l]; simpl; [reflexivity|].
  now destruct (submitted_at x <=? submitted_at a).
Qed.

Lemma elem_of_insert_desc (a x : Submission) (l : list Submission) :
  x ∈ insert_desc a l <-> x = a \/ x ∈ l.
Proof.
  induction l as [|y l IH]; simpl.
  - rewrite list_elem_of_singleton, elem_of_nil. tauto.
  - destruct (submitted_at y <=? submitted_at a).
    + now rewrite elem_of_cons.
    + rewrite !elem_of_cons, IH. tauto.
Qed.

Lemma elem_of_order_by (x : Submission) (l : list Submission) :
  x ∈ order_by_submitted_at_desc l <-> x ∈ l.
Proof.
  induction l as [|y l IH]; simpl; [reflexivity|].
  now rewrite elem_of_insert_desc, IH, elem_of_cons.
Qed.

(** The head of the ordered query set is a row of the table that no other
    row is later than. *)
Lemma head_order_by_latest (l : list Submission) (s : Submission) :
  head (order_by_submitted_at_desc l) = Some s ->
  s ∈ l /\ forall x, x ∈ l -> submitted_at x <= submitted_at s.
Proof.
  revert s. induction l as [|a l IH]; intros s; simpl; [discriminate|].
  rewrite head_insert_desc. intros [= <-].
  destruct (head (order_by_submitted_at_desc l)) as [m|] eqn:Hm.
  - destruct (IH m eq_refl) as [Hin Hmax].
    destruct (Z.leb_spec (submitted_at m) (submitted_at a)).
    + split; [apply elem_of_cons; now left|].
      intros x [->|Hx]%elem_of_cons; [lia|]. specialize (Hmax x Hx). lia.
    + split; [apply elem_of_cons; now right|].
      intros x [->|Hx]%elem_of_cons; [lia|]. now apply Hmax.
  - assert (l = []) as ->.
    { destruct l as [|b l]; [reflexivity|].
      simpl in Hm. now rewrite head_insert_desc in Hm. }
    split; [apply elem_of_cons; now left|].
    intros x [->|Hx]%elem_of_cons; [lia|]. now apply elem_of_nil in Hx.
Qed.

Lemma get_submission_Some (db : DB) (t : Z) (s : Submission) :
  get_submission db t = Some s -> most_recent db t s.
Proof.
  unfold get_submission, most_recent. intros H.
  destruct (head_order_by_latest
              (filter (fun s => submission_team_id s = t) (submissions db)) s)
    as [Hin Hmax].
  { now destruct (order_by_submitted_at_desc _). }
  apply list_elem_of_filter in Hin as [? ?]. repeat split; [assumption..|].
  intros x Hx Ht. apply Hmax. now apply list_elem_of_filter.
Qed.

Lemma get_submission_None (db : DB) (t : Z) :
  get_submission db t = None <->
  forall x, x ∈ submissions db -> submission_team_id x <> t.
Proof.
  unfold get_submission. split.
  - intros H x Hx Ht.
    assert (x ∈ order_by_submitted_at_desc
              (filter (fun s => submission_team_id s = t) (submissions db))) as Hin.
    { apply elem_of_order_by, list_elem_of_filter. now split. }
    destruct (order_by_submitted_at_desc _); [now apply elem_of_nil in Hin|discriminate].
  - intros H.
    destruct (order_by_submitted_at_desc _) as [|s l] eqn:E; [reflexivity|].
    assert (s ∈ s :: l) as Hin by (apply elem_of_cons; now left).
    rewrite <- E in Hin.
    apply elem_of_order_by, list_elem_of_filter in Hin as [Ht Hs].
    now destruct (H s Hs).
Qed.

Lemma get_queryset_lookup (db : DB) (team : Team) (pk : Z) (s : Scrimmage) :
  get_queryset db team !! pk = Some s <->
  scrimmages db !! pk = Some s /\
  (red_team s = team_id team \/ blue_team s = team_id team).
Proof. unfold get_queryset. now rewrite map_lookup_filter_Some. Qed.

Lemma get_queryset_visible (db : DB) (team : Team) (pk : Z) (s : Scrimmage) :
  scrimmages db !! pk = Some s ->
  red_team s = team_id team \/ blue_team s = team_id team ->
  get_queryset db team !! pk = Some s.
Proof. intros. now apply get_queryset_lookup. Qed.

Lemma save_lookup (db : DB) (pk : Z) (s : Scrimmage) :
  scrimmages (save db pk s) !! pk = Some s.
Proof. unfold save; simpl. apply lookup_insert_eq. Qed.


(** ** The transitions of a scrimmage *)

(** [reject] and [cancel] never write to the database. *)
Lemma reject_db (db : DB) (league_id : Z) (team : Team) (pk : Z) :
  (reject db league_id team pk).1 = db.
Proof. unfold reject. repeat case_match; reflexivity. Qed.

Lemma cancel_db (db : DB) (league_id : Z) (team : Team) (pk : Z) :
  (cancel db league_id team pk).1 = db.
Proof. unfold cancel. repeat case_match; reflexivity. Qed.


Section Transitions.

Variables (db : DB) (league_id : Z) (team : Team) (pk : Z) (s : Scrimmage).
Hypothesis Hrow : scrimmages db !! pk = Some s.

(** What each view answers once the row is known, by the tests it makes in
    the order it makes them. *)
Lemma accept_cases :
  accept db league_id team pk =
  if bool_decide (red_team s = team_id team \/ blue_team s = team_id team) then
    if bool_decide (requested_by s = team_id team) then
      (db, message HTTP_400_BAD_REQUEST "Cannot accept an outgoing scrimmage.")
    else if bool_decide (status s = "pending") then
      match get_submission db (red_team s), get_submission db (blue_team s) with
      | Some r, Some b =>
          let s' := with_submissions (with_status s "queued") r b in
          (save db pk s', {| status_code := HTTP_200_OK; body := ScrimmageData pk s' |})
      | _, _ => (db, message HTTP_500_INTERNAL_SERVER_ERROR
                             "Teams should have submissions if queued")
      end
    else (db, message HTTP_400_BAD_REQUEST "Scrimmage is not pending.")
  else (db, message HTTP_404_NOT_FOUND "Scrimmage does not exist.").
Proof.
  unfold accept. case_bool_decide as Hvis.
  - rewrite (get_queryset_visible db team pk s Hrow Hvis).
    repeat case_bool_decide; simpl; reflexivity.
  - destruct (get_queryset db team !! pk) as [s'|] eqn:E; [|reflexivity].
    apply get_queryset_lookup in E as [E1 E2].
    assert (s' = s) as -> by congruence. contradiction.
Qed.

Lemma reject_cases :
  reject db league_id team pk =
  if bool_decide (red_team s = team_id team \/ blue_team s = team_id team) then
    if bool_decide (requested_by s = team_id team) then
      (db, message HTTP_400_BAD_REQUEST "Cannot reject an outgoing scrimmage.")
    else if bool_decide (status s = "pending") then
      (db, {| status_code := HTTP_200_OK;
              body := ScrimmageData pk (with_status s "rejected") |})
    else (db, message HTTP_400_BAD_REQUEST "Scrimmage is not pending.")
  else (db, message HTTP_404_NOT_FOUND "Scrimmage does not exist.").
Proof.
  unfold reject. case_bool_decide as Hvis.
  - rewrite (get_queryset_visible db team pk s Hrow Hvis).
    repeat case_bool_decide; simpl; reflexivity.
  - destruct (get_queryset db team !! pk) as [s'|] eqn:E; [|reflexivity].
    apply get_queryset_lookup in E as [E1 E2].
    assert (s' = s) as -> by congruence. contradiction.
Qed.

Lemma cancel_cases :
  cancel db league_id team pk =
  if bool_decide (red_team s = team_id team \/ blue_team s = team_id team) then
    if bool_decide (requested_by s = team_id team) then
      if bool_decide (status s = "pending") then
        (db, {| status_code := HTTP_200_OK;
                body := ScrimmageData pk (with_status s "cancelled") |})
      else (db, message HTTP_400_BAD_REQUEST "Scrimmage is not pending.")
    else (db, message HTTP_400_BAD_REQUEST "Cannot cancel an incoming scrimmage.")
  else (db, message HTTP_404_NOT_FOUND "Scrimmage does not exist.").
Proof.
  unfold cancel. case_bool_decide as Hvis.
  - rewrite (get_queryset_visible db team pk s Hrow Hvis).
    repeat case_bool_decide; simpl; reflexivity.
  - destruct (get_queryset db team !! pk) as [s'|] eqn:E; [|reflexivity].
    apply get_queryset_lookup in E as [E1 E2].
    assert (s' = s) as -> by congruence. contradiction.
Qed.

End Transitions.

(** C4.  An accept of a pending scrimmage by the team that did not request it
    queues the scrimmage and stores, for each side, the submission that
    [get_submission] finds in the database at the time of the call, which is
    a most recent submission of that side; when either side has no submission
    the call answers 500 and stores nothing. *)
Theorem accept_queues_with_current_submissions
  (db : DB) (league_id : Z) (team : Team) (pk : Z) (s : Scrimmage) :
  scrimmages db !! pk = Some s ->
  red_team s = team_id team \/ blue_team s = team_id team ->
  status s = "pending" ->
  requested_by s <> team_id team ->
  match get_submission db (red_team s), get_submission db (blue_team s) with
  | Some r, Some b =>
      let s' := with_submissions (with_status s "queued") r b in
      accept db league_id team pk =
        (save db pk s', {| status_code := HTTP_200_OK; body := ScrimmageData pk s' |})
      /\ scrimmages (accept db league_id team pk).1 !! pk = Some s'
      /\ status s' = "queued"
      /\ red_submission s' = Some (submission_id r)
      /\ blue_submission s' = Some (submission_id b)
      /\ most_recent db (red_team s) r
      /\ most_recent db (blue_team s) b
  | _, _ =>
      accept db league_id team pk =
        (db, message HTTP_500_INTERNAL_SERVER_ERROR
                     "Teams should have submissions if queued")
  end.
Proof.
  intros Hrow Hvis Hpending Hactor.
  rewrite (accept_cases db league_id team pk s Hrow).
  rewrite (bool_decide_eq_true_2 _ Hvis), (bool_decide_eq_false_2 _ Hactor),
    (bool_decide_eq_true_2 _ Hpending).
  destruct (get_submission db (red_team s)) as [r|] eqn:Er; [|reflexivity].
  destruct (get_submission db (blue_team s)) as [b|] eqn:Eb; [|reflexivity].
  cbv zeta. split; [reflexivity|]. split; [apply save_lookup|].
  do 3 (split; [reflexivity|]).
  split; now apply get_submission_Some.
Qed.

(** Team 2 accepts scrimmage 7 after team 1 has uploaded submission 101: the
    scrimmage is queued with 101, not with the earlier 100. *)
Lemma accept_queues_with_current_submissions_witness :
  (scrimmages db_pending !! 7 = Some pending7
   /\ (red_team pending7 = team_id team_B \/ blue_team pending7 = team_id team_B)
   /\ status pending7 = "pending"
   /\ requested_by pending7 <> team_id team_B)
  /\ accept db_pending 1 team_B 7 =
       (db_queued, {| status_code := 200; body := ScrimmageData 7 queued7 |})
  /\ scrimmages (accept db_pending 1 team_B 7).1 !! 7 = Some queued7
  /\ most_recent db_pending 1 (mk_submission 101 1 9).
Proof.
  assert (scrimmages db_pending !! 7 = Some pending7) as Hrow by reflexivity.
  assert (red_team pending7 = team_id team_B \/ blue_team pending7 = team_id team_B)
    as Hvis by (right; reflexivity).
  assert (status pending7 = "pending") as Hpending by reflexivity.
  assert (requested_by pending7 <> team_id team_B) as Hactor by discriminate.
  split; [tauto|].
  pose proof (accept_queues_with_current_submissions db_pending 1 team_B 7 pending7
                Hrow Hvis Hpending Hactor) as H.
  assert (get_submission db_pending (red_team pending7) = Some (mk_submission 101 1 9))
    as Er by reflexivity.
  assert (get_submission db_pending (blue_team pending7) = Some (mk_submission 200 2 6))
    as Eb by reflexivity.
  rewrite Er, Eb in H.
  destruct H as (H1 & H2 & _ & _ & _ & H3 & _).
  split; [exact H1|]. split; [exact H2 | exact H3].
Defined.

(** A reject or a cancel that succeeds reports the new status and leaves the
    row as it was. *)
Lemma reject_reports_without_saving
  (db : DB) (league_id : Z) (team : Team) (pk : Z) (s : Scrimmage) :
  scrimmages db !! pk = Some s ->
  red_team s = team_id team \/ blue_team s = team_id team ->
  status s = "pending" ->
  requested_by s <> team_id team ->
  reject db league_id team pk =
    (db, {| status_code := HTTP_200_OK;
            body := ScrimmageData pk (with_status s "rejected") |})
  /\ scrimmages (reject db league_id team pk).1 !! pk = Some s.
Proof.
  intros Hrow Hvis Hpending Hactor. rewrite reject_db. split; [|assumption].
  rewrite (reject_cases db league_id team pk s Hrow).
  now rewrite (bool_decide_eq_true_2 _ Hvis), (bool_decide_eq_false_2 _ Hactor),
    (bool_decide_eq_true_2 _ Hpending).
Qed.

Lemma cancel_reports_without_saving
  (db : DB) (league_id : Z) (team : Team) (pk : Z) (s : Scrimmage) :
  scrimmages db !! pk = Some s ->
  red_team s = team_id team \/ blue_team s = team_id team ->
  status s = "pending" ->
  requested_by s = team_id team ->
  cancel db league_id team pk =
    (db, {| status_code := HTTP_200_OK;
            body := ScrimmageData pk (with_status s "cancelled") |})
  /\ scrimmages (cancel db league_id team pk).1 !! pk = Some s.
Proof.
  intros Hrow Hvis Hpending Hactor. rewrite cancel_db. split; [|assumption].
  rewrite (cancel_cases db league_id team pk s Hrow).
  now rewrite (bool_decide_eq_true_2 _ Hvis), (bool_decide_eq_true_2 _ Hactor),
    (bool_decide_eq_true_2 _ Hpending).
Qed.

(** C2.  Team 2 rejects the pending scrimmage 7, and team 1 cancels it: each
    call answers 200 with the new status in the response, and the row of the
    database still says [pending].  [accept] calls [scrimmage.save()];
    [reject] and [cancel] do not. *)
Theorem reject_cancel_leave_row_pending :
  reject db_pending 1 team_B 7 =
    (db_pending, {| status_code := 200;
                    body := ScrimmageData 7 (with_status pending7 "rejected") |})
  /\ status <$> scrimmages (reject db_pending 1 team_B 7).1 !! 7 = Some "pending"
  /\ cancel db_pending 1 team_R 7 =
    (db_pending, {| status_code := 200;
                    body := ScrimmageData 7 (with_status pending7 "cancelled") |})
  /\ status <$> scrimmages (cancel db_pending 1 team_R 7).1 !! 7 = Some "pending".
Proof.
  assert (scrimmages db_pending !! 7 = Some pending7) as Hrow by reflexivity.
  split; [|split; [|split]].
  - apply (reject_reports_without_saving _ 1 team_B _ _ Hrow);
      [right; reflexivity | reflexivity | discriminate].
  - now rewrite reject_db, Hrow.
  - apply (cancel_reports_without_saving _ 1 team_R _ _ Hrow);
      [left; reflexivity | reflexivity | reflexivity].
  - now rewrite cancel_db, Hrow.
Qed.

(** C5, as stated, fails: on the queued scrimmage 7 an accept by the team that
    requested it is answered by the test on the acting team, which comes
    first, and not by the test on the status. *)
Lemma accept_non_pending_not_always_conflict :
  ~ (forall db league_id team pk s,
       scrimmages db !! pk = Some s -> status s <> "pending" ->
       (accept db league_id team pk).2
       = message HTTP_400_BAD_REQUEST "Scrimmage is not pending.").
Proof.
  intros H. specialize (H db_queued 1 team_R 7 queued7).
  assert (scrimmages db_queued !! 7 = Some queued7) as Hrow by apply save_lookup.
  rewrite (accept_cases _ 1 team_R _ _ Hrow) in H.
  specialize (H Hrow). simpl in H.
  assert (message HTTP_400_BAD_REQUEST "Cannot accept an outgoing scrimmage."
          = message HTTP_400_BAD_REQUEST "Scrimmage is not pending.") as E
    by (apply H; discriminate).
  discriminate E.
Qed.

(** C5, amended.  On a scrimmage that is not pending, every accept, reject and
    cancel fails and leaves the database as it was.  The answer is the
    conflict error 400 "Scrimmage is not pending." when the acting team takes
    part in the scrimmage and passes the test on the acting team (it did not
    request the scrimmage, for accept and reject; it did, for cancel); it is
    the 400 of that test ("Cannot accept an outgoing scrimmage.", "Cannot
    reject an outgoing scrimmage.", "Cannot cancel an incoming scrimmage.")
    when a team that takes part is on the wrong side; and it is 404
    "Scrimmage does not exist." when the team takes no part. *)
Theorem non_pending_transitions_fail
  (db : DB) (league_id : Z) (team : Team) (pk : Z) (s : Scrimmage) :
  scrimmages db !! pk = Some s ->
  status s <> "pending" ->
  let conflict := message HTTP_400_BAD_REQUEST "Scrimmage is not pending." in
  let not_found := message HTTP_404_NOT_FOUND "Scrimmage does not exist." in
  let takes_part := red_team s = team_id team \/ blue_team s = team_id team in
  ((accept db league_id team pk).1 = db
   /\ is_error (accept db league_id team pk).2
   /\ (takes_part -> requested_by s <> team_id team ->
       (accept db league_id team pk).2 = conflict)
   /\ (takes_part -> requested_by s = team_id team ->
       (accept db league_id team pk).2
       = message HTTP_400_BAD_REQUEST "Cannot accept an outgoing scrimmage.")
   /\ (~ takes_part -> (accept db league_id team pk).2 = not_found))
  /\ ((reject db league_id team pk).1 = db
      /\ is_error (reject db league_id team pk).2
      /\ (takes_part -> requested_by s <> team_id team ->
          (reject db league_id team pk).2 = conflict)
      /\ (takes_part -> requested_by s = team_id team ->
          (reject db league_id team pk).2
          = message HTTP_400_BAD_REQUEST "Cannot reject an outgoing scrimmage.")
      /\ (~ takes_part -> (reject db league_id team pk).2 = not_found))
  /\ ((cancel db league_id team pk).1 = db
      /\ is_error (cancel db league_id team pk).2
      /\ (takes_part -> requested_by s = team_id team ->
          (cancel db league_id team pk).2 = conflict)
      /\ (takes_part -> requested_by s <> team_id team ->
          (cancel db league_id team pk).2
          = message HTTP_400_BAD_REQUEST "Cannot cancel an incoming scrimmage.")
      /\ (~ takes_part -> (cancel db league_id team pk).2 = not_found)).
Proof.
  intros Hrow Hstatus conflict not_found takes_part.
  subst conflict not_found takes_part.
  rewrite (accept_cases _ league_id team _ _ Hrow),
    (reject_cases _ league_id team _ _ Hrow),
    (cancel_cases _ league_id team _ _ Hrow).
  rewrite (bool_decide_eq_false_2 _ Hstatus).
  unfold is_error.
  repeat case_bool_decide; simpl; repeat split;
    solve [ reflexivity | status_lia | tauto | intros; contradiction ].
Qed.

(** On the queued scrimmage 7: the invited team 2 and the requesting team 1
    on their own side, each on the other's side, and team 3, which takes no
    part. *)
Lemma non_pending_transitions_fail_witness :
  (scrimmages db_queued !! 7 = Some queued7 /\ status queued7 <> "pending")
  /\ (accept db_queued 1 team_B 7).2 = message 400 "Scrimmage is not pending."
  /\ (reject db_queued 1 team_B 7).2 = message 400 "Scrimmage is not pending."
  /\ (cancel db_queued 1 team_R 7).2 = message 400 "Scrimmage is not pending."
  /\ (accept db_queued 1 team_B 7).1 = db_queued
  /\ (accept db_queued 1 team_R 7).2
     = message 400 "Cannot accept an outgoing scrimmage."
  /\ (cancel db_queued 1 team_B 7).2
     = message 400 "Cannot cancel an incoming scrimmage."
  /\ (reject db_queued 1 team_3 7).2 = message 404 "Scrimmage does not exist.".
Proof.
  assert (scrimmages db_queued !! 7 = Some queued7) as Hrow by apply save_lookup.
  assert (status queued7 <> "pending") as Hstatus by discriminate.
  split; [tauto|].
  destruct (non_pending_transitions_fail db_queued 1 team_B 7 queued7 Hrow Hstatus)
    as ((Ha1 & _ & Ha & _) & (_ & _ & Hr & _) & (_ & _ & _ & Hc' & _)).
  destruct (non_pending_transitions_fail db_queued 1 team_R 7 queued7 Hrow Hstatus)
    as ((_ & _ & _ & Ha' & _) & _ & (_ & _ & Hc & _)).
  destruct (non_pending_transitions_fail db_queued 1 team_3 7 queued7 Hrow Hstatus)
    as (_ & (_ & _ & _ & _ & Hr3) & _).
  split; [apply Ha; [right; reflexivity | discriminate]|].
  split; [apply Hr; [right; reflexivity | discriminate]|].
  split; [apply Hc; [left; reflexivity | reflexivity]|].
  split; [exact Ha1|].
  split; [apply Ha'; [left; reflexivity | reflexivity]|].
  split; [apply Hc'; [right; reflexivity | discriminate]|].
  apply Hr3. intros [H | H]; discriminate H.
Defined.

(** C6.  On a pending scrimmage, accept and reject answer 200 only to a team
    that did not request it, and cancel only to the team that did; the team
    on the wrong side is refused with an error and nothing is stored.  A team
    that takes part in the scrimmage is told which side it is on, and reject
    and cancel by the right side do answer 200. *)
Theorem transitions_check_acting_team
  (db : DB) (league_id : Z) (team : Team) (pk : Z) (s : Scrimmage) :
  scrimmages db !! pk = Some s ->
  status s = "pending" ->
  let takes_part := red_team s = team_id team \/ blue_team s = team_id team in
  (status_code (accept db league_id team pk).2 = HTTP_200_OK ->
     requested_by s <> team_id team)
  /\ (status_code (reject db league_id team pk).2 = HTTP_200_OK ->
     requested_by s <> team_id team)
  /\ (status_code (cancel db league_id team pk).2 = HTTP_200_OK ->
     requested_by s = team_id team)
  /\ (requested_by s = team_id team ->
      is_error (accept db league_id team pk).2
      /\ (accept db league_id team pk).1 = db
      /\ is_error (reject db league_id team pk).2
      /\ (reject db league_id team pk).1 = db)
  /\ (requested_by s <> team_id team ->
      is_error (cancel db league_id team pk).2
      /\ (cancel db league_id team pk).1 = db)
  /\ (takes_part -> requested_by s = team_id team ->
      (accept db league_id team pk).2
        = message HTTP_400_BAD_REQUEST "Cannot accept an outgoing scrimmage."
      /\ (reject db league_id team pk).2
        = message HTTP_400_BAD_REQUEST "Cannot reject an outgoing scrimmage."
      /\ status_code (cancel db league_id team pk).2 = HTTP_200_OK)
  /\ (takes_part -> requested_by s <> team_id team ->
      (cancel db league_id team pk).2
        = message HTTP_400_BAD_REQUEST "Cannot cancel an incoming scrimmage."
      /\ status_code (reject db league_id team pk).2 = HTTP_200_OK).
Proof.
  intros Hrow Hpending takes_part. subst takes_part.
  rewrite (accept_cases _ league_id team _ _ Hrow),
    (reject_cases _ league_id team _ _ Hrow),
    (cancel_cases _ league_id team _ _ Hrow).
  rewrite (bool_decide_eq_true_2 _ Hpending).
  unfold is_error.
  destruct (bool_decide (red_team s = team_id team \/ blue_team s = team_id team))
    eqn:Hvis;
    [apply bool_decide_eq_true in Hvis | apply bool_decide_eq_false in Hvis];
    (destruct (bool_decide (requested_by s = team_id team)) eqn:Hactor;
     [apply bool_decide_eq_true in Hactor | apply bool_decide_eq_false in Hactor]);
    simpl; repeat split; intros;
      solve [ reflexivity | status_lia | tauto | discriminate | congruence ].
Qed.

Lemma transitions_check_acting_team_witness :
  (scrimmages db_pending !! 7 = Some pending7 /\ status pending7 = "pending")
  /\ (accept db_pending 1 team_R 7).2
       = message 400 "Cannot accept an outgoing scrimmage."
  /\ (reject db_pending 1 team_R 7).2
       = message 400 "Cannot reject an outgoing scrimmage."
  /\ (cancel db_pending 1 team_B 7).2
       = message 400 "Cannot cancel an incoming scrimmage."
  /\ status_code (cancel db_pending 1 team_R 7).2 = 200
  /\ status_code (reject db_pending 1 team_B 7).2 = 200.
Proof.
  assert (scrimmages db_pending !! 7 = Some pending7) as Hrow by reflexivity.
  assert (status pending7 = "pending") as Hpending by reflexivity.
  split; [tauto|].
  destruct (transitions_check_acting_team db_pending 1 team_R 7 pending7 Hrow Hpending)
    as (_ & _ & _ & _ & _ & HR & _).
  destruct (transitions_check_acting_team db_pending 1 team_B 7 pending7 Hrow Hpending)
    as (_ & _ & _ & _ & _ & _ & HB).
  destruct HR as (Ha & Hr & Hc); [left; reflexivity | reflexivity |].
  destruct HB as (Hc' & Hr'); [right; reflexivity | discriminate |].
  repeat (split; [assumption|]). assumption.
Defined.

(** ** Permissions *)

(** A request with an unsafe method is denied in a league that is inactive or
    has submissions switched off, whatever view it is for. *)
Lemma get_permissions_denied (db : DB) (request : Request) (league_id : Z) (l : League) :
  get_league db league_id = Some l ->
  method request ∉ SAFE_METHODS ->
  active l && submissions_enabled l = false ->
  get_permissions db request league_id = Raise PermissionDenied.
Proof.
  intros Hl Hm Hflags. unfold get_permissions. rewrite Hl.
  now rewrite (bool_decide_eq_false_2 _ Hm), Hflags.
Qed.

Lemma dispatch_denied (view : DB -> Z -> Team -> DB * Response)
  (db : DB) (request : Request) (league_id : Z) (l : League) :
  get_league db league_id = Some l ->
  method request ∉ SAFE_METHODS ->
  active l && submissions_enabled l = false ->
  dispatch view db request league_id = (db, Raise PermissionDenied).
Proof.
  intros Hl Hm Hflags. unfold dispatch.
  now rewrite (get_permissions_denied db request league_id l Hl Hm Hflags).
Qed.

(** C7, as stated, fails.  The claim: for an existing scrimmage in an existing
    active league, the outcome of an accept is the same with the submissions
    toggle off and on.  The PATCH request of team 2 to accept scrimmage 7 is
    denied with submissions switched off and answered 200 with them switched
    on, in a league that is active both times. *)
Lemma accept_depends_on_submissions_enabled :
  ~ (forall db request league_id pk lg s,
       get_league db league_id = Some lg ->
       active lg = true ->
       scrimmages db !! pk = Some s ->
       method request = "PATCH" ->
       (dispatch (fun db l t => accept db l t pk)
                 (with_submissions_enabled false db) request league_id).2
       = (dispatch (fun db l t => accept db l t pk)
                   (with_submissions_enabled true db) request league_id).2).
Proof.
  intros H.
  specialize (H db_pending patch_by_20 1 7 league1 pending7
                eq_refl eq_refl eq_refl eq_refl).
  vm_compute in H. discriminate H.
Qed.

(** C7, amended.  In an existing league, a request with an unsafe method is
    denied before the view runs whenever the league is inactive or has
    submissions switched off: the PATCH requests to accept, reject and cancel
    as much as the POST request to create.  So a request with an unsafe
    method that reaches a view was made in a league that is active and has
    submissions enabled. *)
Theorem transitions_require_submissions_enabled
  (db : DB) (request : Request) (league_id : Z) (l : League) (pk : Z) :
  get_league db league_id = Some l ->
  method request ∉ SAFE_METHODS ->
  (active l = false \/ submissions_enabled l = false ->
   dispatch (fun db l t => accept db l t pk) db request league_id
     = (db, Raise PermissionDenied)
   /\ dispatch (fun db l t => reject db l t pk) db request league_id
     = (db, Raise PermissionDenied)
   /\ dispatch (fun db l t => cancel db l t pk) db request league_id
     = (db, Raise PermissionDenied)
   /\ forall int serializer_is_valid,
       dispatch (fun db l t => create int serializer_is_valid db request l t)
                db request league_id
       = (db, Raise PermissionDenied))
  /\ (forall view db' r,
        dispatch view db request league_id = (db', Ok r) ->
        active l = true /\ submissions_enabled l = true).
Proof.
  intros Hl Hm. split.
  - intros Hoff.
    assert (active l && submissions_enabled l = false) as Hflags.
    { destruct Hoff as [-> | ->]; [reflexivity | apply andb_false_r]. }
    repeat split; intros; now apply (dispatch_denied _ db request league_id l).
  - intros view db' r Hrun.
    destruct (active l) eqn:Hactive, (submissions_enabled l) eqn:Henabled;
      [tauto | exfalso..].
    all: rewrite (dispatch_denied view db request league_id l Hl Hm) in Hrun;
      [discriminate | now rewrite Hactive, Henabled].
Qed.

(** The PATCH request of team 2 to accept scrimmage 7, with submissions
    switched off and in an inactive league. *)
Lemma transitions_require_submissions_enabled_witness :
  (get_league db_closed 1
     = Some {| league_pk := 1; active := true; submissions_enabled := false |}
   /\ get_league db_inactive 1
     = Some {| league_pk := 1; active := false; submissions_enabled := true |}
   /\ method patch_by_20 ∉ SAFE_METHODS)
  /\ dispatch (fun db l t => accept db l t 7) db_closed patch_by_20 1
     = (db_closed, Raise PermissionDenied)
  /\ dispatch (fun db l t => accept db l t 7) db_inactive patch_by_20 1
     = (db_inactive, Raise PermissionDenied).
Proof.
  assert (get_league db_closed 1
          = Some {| league_pk := 1; active := true; submissions_enabled := false |})
    as Hl by reflexivity.
  assert (get_league db_inactive 1
          = Some {| league_pk := 1; active := false; submissions_enabled := true |})
    as Hl' by reflexivity.
  assert (method patch_by_20 ∉ SAFE_METHODS) as Hm
    by (apply (bool_decide_eq_false_1 _); reflexivity).
  split; [tauto|]. split.
  - apply (proj1 (transitions_require_submissions_enabled db_closed patch_by_20 1 _ 7
                    Hl Hm)).
    right; reflexivity.
  - apply (proj1 (transitions_require_submissions_enabled db_inactive patch_by_20 1 _ 7
                    Hl' Hm)).
    left; reflexivity.
Defined.

(** ** Creating a scrimmage *)

(** The lookup of [get_team] is by membership: the team it returns has the
    given id among its users, whatever its own id is. *)
Lemma get_team_Some (db : DB) (league_id user_id : Z) (t : Team) :
  get_team db league_id user_id = Ok (Some t) ->
  t ∈ teams db /\ team_league_id t = league_id /\ user_id ∈ users t.
Proof.
  unfold get_team, teams_filter. intros H.
  destruct (filter _ (teams db)) as [|t' [|t'' l]] eqn:E; try discriminate.
  injection H as ->.
  assert (t ∈ [t]) as Hin by (apply elem_of_cons; now left).
  rewrite <- E in Hin. apply list_elem_of_filter in Hin. tauto.
Qed.

Lemma get_team_InternalError (db : DB) (league_id user_id : Z) :
  get_team db league_id user_id = Raise InternalError <->
  (1 < length (teams_filter db league_id user_id))%nat.
Proof.
  unfold get_team.
  destruct (teams_filter db league_id user_id) as [|t [|t' l]]; simpl;
    split; intros H; try discriminate; try lia; reflexivity.
Qed.

Section CreateFacts.
Variable int : PyVal -> result Z.
Variable serializer_is_valid : DB -> ScrimmageInput -> bool.

Lemma getitem_Ok request key v :
  getitem request key = Ok v <-> data request !! key = Some v.
Proof. unfold getitem. destruct (data request !! key); split; congruence. Qed.

(** A call of [create] that answers 201 has read its four fields, found the
    other team, the map and both submissions, and handed the serializer the
    dictionary [d]; the row stored and shown in the response is the one the
    serializer makes of [d]. *)
Lemma create_created db request league_id team db' r :
  create int serializer_is_valid db request league_id team = (db', r) ->
  status_code r = HTTP_201_CREATED ->
  exists red_v blue_v map_v ranked_v red_team_id blue_team_id map_id
         that_team m rs bs d,
    data request !! "red_team" = Some red_v /\ int red_v = Ok red_team_id /\
    data request !! "blue_team" = Some blue_v /\ int blue_v = Ok blue_team_id /\
    data request !! "map" = Some map_v /\ int map_v = Ok map_id /\
    data request !! "ranked" = Some ranked_v /\
    (team_id team = blue_team_id /\
       get_team db league_id red_team_id = Ok (Some that_team) /\
       data_red_team d = team_id that_team /\ data_blue_team d = team_id team
     \/ team_id team <> blue_team_id /\ team_id team = red_team_id /\
       get_team db league_id blue_team_id = Ok (Some that_team) /\
       data_red_team d = team_id team /\ data_blue_team d = team_id that_team) /\
    get_map db league_id map_id = Some m /\
    get_submission db red_team_id = Some rs /\
    get_submission db blue_team_id = Some bs /\
    data_league d = league_id /\ data_map d = map_pk m /\
    data_ranked d = py_eq_str ranked_v "True" /\
    data_requested_by d = team_id team /\
    data_status d =
      (if auto_accepts (data_ranked d) that_team then Some "queued" else None) /\
    data_red_submission d =
      (if auto_accepts (data_ranked d) that_team then Some (submission_id rs) else None) /\
    data_blue_submission d =
      (if auto_accepts (data_ranked d) that_team then Some (submission_id bs) else None) /\
    serializer_is_valid db d = true /\
    db' = save db (fresh (dom (scrimmages db))) (new_row d) /\
    r = {| status_code := HTTP_201_CREATED;
           body := ScrimmageData (fresh (dom (scrimmages db))) (new_row d) |}.
Proof.
  unfold create, create_body. intros H Hcode.
  destruct (getitem request "red_team") as [red_v|] eqn:Ered; simpl in H;
    [|inversion H; subst; discriminate].
  destruct (int red_v) as [red_team_id|] eqn:Eri; simpl in H;
    [|inversion H; subst; discriminate].
  destruct (getitem request "blue_team") as [blue_v|] eqn:Eblue; simpl in H;
    [|inversion H; subst; discriminate].
  destruct (int blue_v) as [blue_team_id|] eqn:Ebi; simpl in H;
    [|inversion H; subst; discriminate].
  destruct (getitem request "map") as [map_v|] eqn:Emap; simpl in H;
    [|inversion H; subst; discriminate].
  destruct (int map_v) as [map_id|] eqn:Emi; simpl in H;
    [|inversion H; subst; discriminate].
  destruct (getitem request "ranked") as [ranked_v|] eqn:Eranked; simpl in H;
    [|inversion H; subst; discriminate].
  apply getitem_Ok in Ered, Eblue, Emap, Eranked.
  destruct (bool_decide (team_id team = blue_team_id)) eqn:Eb.
  - apply bool_decide_eq_true in Eb.
    destruct (get_team db league_id red_team_id) as [[that_team|]|] eqn:Eteam;
      simpl in H; [|inversion H; subst; discriminate..].
    destruct (get_map db league_id map_id) as [m|] eqn:Em;
      [|inversion H; subst; discriminate].
    destruct (get_submission db red_team_id) as [rs|] eqn:Ers;
      [|inversion H; subst; discriminate].
    destruct (get_submission db blue_team_id) as [bs|] eqn:Ebs;
      [|inversion H; subst; discriminate].
    destruct (serializer_is_valid db _) eqn:Ev; simpl in H;
      [|inversion H; subst; discriminate].
    inversion H; subst db' r; clear H Hcode.
    match type of Ev with
    | serializer_is_valid db ?d = true =>
        exists red_v, blue_v, map_v, ranked_v, red_team_id, blue_team_id, map_id,
          that_team, m, rs, bs, d
    end.
    repeat (split; [eassumption || reflexivity|]).
    destruct (auto_accepts (py_eq_str ranked_v "True") that_team) eqn:Ea;
      simpl; rewrite Ea; (split; [left|]); repeat split; assumption || reflexivity.
  - apply bool_decide_eq_false in Eb.
    destruct (bool_decide (team_id team = red_team_id)) eqn:Er;
      [|inversion H; subst; discriminate].
    apply bool_decide_eq_true in Er.
    destruct (get_team db league_id blue_team_id) as [[that_team|]|] eqn:Eteam;
      simpl in H; [|inversion H; subst; discriminate..].
    destruct (get_map db league_id map_id) as [m|] eqn:Em;
      [|inversion H; subst; discriminate].
    destruct (get_submission db red_team_id) as [rs|] eqn:Ers;
      [|inversion H; subst; discriminate].
    destruct (get_submission db blue_team_id) as [bs|] eqn:Ebs;
      [|inversion H; subst; discriminate].
    destruct (serializer_is_valid db _) eqn:Ev; simpl in H;
      [|inversion H; subst; discriminate].
    inversion H; subst db' r; clear H Hcode.
    match type of Ev with
    | serializer_is_valid db ?d = true =>
        exists red_v, blue_v, map_v, ranked_v, red_team_id, blue_team_id, map_id,
          that_team, m, rs, bs, d
    end.
    repeat (split; [eassumption || reflexivity|]).
    destruct (auto_accepts (py_eq_str ranked_v "True") that_team) eqn:Ea;
      simpl; rewrite Ea; (split; [right|]); repeat split; assumption || reflexivity.
Qed.

End CreateFacts.

Lemma py_eq_str_true (v : PyVal) (lit : string) :
  py_eq_str v lit = true <-> v = PyStr lit.
Proof.
  destruct v as [| b | z | s]; simpl; try (split; discriminate).
  rewrite bool_decide_eq_true. split; congruence.
Qed.

Lemma auto_accepts_flag (ranked : bool) (that_team : Team) :
  auto_accepts ranked that_team
  = if ranked then auto_accept_ranked that_team else auto_accept_unranked that_team.
Proof. unfold auto_accepts. destruct ranked; simpl; [apply orb_false_r | reflexivity]. Qed.

(** C10.  In a successful [create], the [ranked] entry of the dictionary
    handed to the serializer, and of the row stored, is true exactly when the
    [ranked] field of the request is the string [True]; with the string
    [true] or the boolean [True] it is false.  The scrimmage is queued
    exactly when the other team, the one [get_team] returned for the id of
    the request that is not the acting team's, accepts scrimmages of that
    rankedness automatically: [auto_accept_ranked] for a ranked scrimmage,
    [auto_accept_unranked] otherwise. *)
Theorem create_ranked_iff_literal_True
  (int : PyVal -> result Z) (serializer_is_valid : DB -> ScrimmageInput -> bool)
  (db : DB) (request : Request) (league_id : Z) (team : Team)
  (db' : DB) (r : Response) :
  create int serializer_is_valid db request league_id team = (db', r) ->
  status_code r = HTTP_201_CREATED ->
  exists ranked_v red_team_id blue_team_id that_team pk d,
    data request !! "ranked" = Some ranked_v
    /\ bind (getitem request "red_team") int = Ok red_team_id
    /\ bind (getitem request "blue_team") int = Ok blue_team_id
    /\ (team_id team = blue_team_id
          /\ get_team db league_id red_team_id = Ok (Some that_team)
        \/ team_id team <> blue_team_id /\ team_id team = red_team_id
          /\ get_team db league_id blue_team_id = Ok (Some that_team))
    /\ r = {| status_code := HTTP_201_CREATED; body := ScrimmageData pk (new_row d) |}
    /\ scrimmages db' !! pk = Some (new_row d)
    /\ data_requested_by d = team_id team
    /\ (data_red_team d = team_id that_team /\ data_blue_team d = team_id team
        \/ data_red_team d = team_id team /\ data_blue_team d = team_id that_team)
    /\ (data_ranked d = true <-> ranked_v = PyStr "True")
    /\ (ranked_v = PyStr "true" \/ ranked_v = PyBool true -> data_ranked d = false)
    /\ (data_status d = Some "queued" <->
        (if data_ranked d then auto_accept_ranked that_team
         else auto_accept_unranked that_team) = true)
    /\ ranked (new_row d) = data_ranked d
    /\ (status (new_row d) = "queued" <-> data_status d = Some "queued").
Proof.
  intros Hcreate Hcode.
  destruct (create_created int serializer_is_valid db request league_id team db' r
              Hcreate Hcode)
    as (red_v & blue_v & map_v & ranked_v & red_id & blue_id & map_id & that_team
        & m & rs & bs & d & Hred & Hri & Hblue & Hbi & _ & _ & Hranked & Hside
        & _ & _ & _ & _ & _ & Hr & Hby & Hstatus & _ & _ & _ & -> & ->).
  exists ranked_v, red_id, blue_id, that_team, (fresh (dom (scrimmages db))), d.
  split; [assumption|].
  split; [unfold getitem; now rewrite Hred|].
  split; [unfold getitem; now rewrite Hblue|].
  split; [destruct Hside as [(? & ? & _) | (? & ? & ? & _)]; tauto|].
  split; [reflexivity|]. split; [apply save_lookup|].
  split; [assumption|].
  split; [destruct Hside as [(_ & _ & ? & ?) | (_ & _ & _ & ? & ?)]; tauto|].
  split; [rewrite Hr; apply py_eq_str_true|].
  split; [intros [-> | ->]; rewrite Hr; reflexivity|].
  split.
  - rewrite Hstatus, auto_accepts_flag.
    destruct (if data_ranked d then _ else _); split; intros;
      (reflexivity || discriminate).
  - split; [reflexivity|]. simpl. rewrite Hstatus.
    destruct (auto_accepts _ _); simpl; split; intros; (reflexivity || discriminate).
Qed.

(** Team 1 challenges the team of user 3, team 2, which accepts ranked
    scrimmages automatically and unranked ones not: a request with [ranked]
    set to the string [true] is stored unranked and pending. *)
Lemma create_ranked_iff_literal_True_witness :
  let request := post_scrimmage 1 3 (PyStr "true") in
  let d := {| data_league := 1; data_red_team := 1; data_blue_team := 2;
              data_map := 1; data_ranked := false; data_requested_by := 1;
              data_red_submission := None; data_blue_submission := None;
              data_status := None |} in
  let r := {| status_code := HTTP_201_CREATED; body := ScrimmageData 0 (new_row d) |} in
  (create int_literal always_valid db_ids request 1 team_1
     = (save db_ids 0 (new_row d), r)
   /\ status_code r = HTTP_201_CREATED)
  /\ status (new_row d) = "pending"
  /\ get_team db_ids 1 3 = Ok (Some team_2)
  /\ auto_accept_ranked team_2 = true /\ auto_accept_unranked team_2 = false
  /\ exists ranked_v red_team_id blue_team_id that_team pk d',
      data request !! "ranked" = Some ranked_v
      /\ bind (getitem request "red_team") int_literal = Ok red_team_id
      /\ bind (getitem request "blue_team") int_literal = Ok blue_team_id
      /\ (team_id team_1 = blue_team_id
            /\ get_team db_ids 1 red_team_id = Ok (Some that_team)
          \/ team_id team_1 <> blue_team_id /\ team_id team_1 = red_team_id
            /\ get_team db_ids 1 blue_team_id = Ok (Some that_team))
      /\ r = {| status_code := HTTP_201_CREATED;
                body := ScrimmageData pk (new_row d') |}
      /\ scrimmages (save db_ids 0 (new_row d)) !! pk = Some (new_row d')
      /\ data_requested_by d' = team_id team_1
      /\ (data_red_team d' = team_id that_team /\ data_blue_team d' = team_id team_1
          \/ data_red_team d' = team_id team_1 /\ data_blue_team d' = team_id that_team)
      /\ (data_ranked d' = true <-> ranked_v = PyStr "True")
      /\ (ranked_v = PyStr "true" \/ ranked_v = PyBool true -> data_ranked d' = false)
      /\ (data_status d' = Some "queued" <->
          (if data_ranked d' then auto_accept_ranked that_team
           else auto_accept_unranked that_team) = true)
      /\ ranked (new_row d') = data_ranked d'
      /\ (status (new_row d') = "queued" <-> data_status d' = Some "queued").
Proof.
  intros request d r.
  assert (create int_literal always_valid db_ids request 1 team_1
          = (save db_ids 0 (new_row d), r))
    as Hcreate by (vm_compute; reflexivity).
  assert (status_code r = HTTP_201_CREATED) as Hcode by reflexivity.
  split; [tauto|]. do 4 (split; [reflexivity|]).
  exact (create_ranked_iff_literal_True int_literal always_valid db_ids request 1
           team_1 (save db_ids 0 (new_row d)) r Hcreate Hcode).
Defined.

(** C3.  Team 1 challenges "team 3" to a ranked scrimmage.  [create] looks
    the other team up with [get_team], which searches for a team that has
    user 3 as a member and finds team 2, and takes the submissions with
    [get_submission] under the ids of the request, 1 and 3.  Team 2 accepts
    automatically, so the scrimmage is queued between teams 1 and 2 with
    submission 300 of team 3 on the blue side, while the latest submission
    of its blue team is 200. *)
Theorem create_queues_submission_of_another_team :
  exists s,
    create int_literal always_valid db_ids (post_scrimmage 1 3 (PyStr "True")) 1 team_1
      = (save db_ids 0 s, {| status_code := 201; body := ScrimmageData 0 s |})
    /\ status s = "queued"
    /\ red_team s = 1 /\ blue_team s = 2
    /\ red_submission s = Some 100
    /\ blue_submission s = Some 300
    /\ get_submission db_ids (blue_team s) = Some (mk_submission 200 2 6)
    /\ get_submission db_ids 3 = Some (mk_submission 300 3 7).
Proof.
  exists {| league := 1; red_team := 1; blue_team := 2; scrim_map := 1;
            ranked := true; requested_by := 1; status := "queued";
            red_submission := Some 100; blue_submission := Some 300 |}.
  split; [vm_compute; reflexivity|].
  repeat split.
Qed.

(** C9.  The other team is looked up by user id.  Team 2 is a team of the
    league and not deleted, but no team has user 2 as a member: a challenge to
    team 2 is answered "Requested team does not exist".  No team has id 4, but
    user 4 is the member of team 5: a challenge to "team 4" passes the
    validation of the teams and of the map and fails only for want of
    submissions. *)
Theorem create_looks_up_other_team_by_user_id :
  (team_2 ∈ teams db_ids /\ team_id team_2 = 2 /\ team_league_id team_2 = 1
   /\ deleted team_2 = false)
  /\ create int_literal always_valid db_ids (post_scrimmage 1 2 (PyStr "True")) 1 team_1
     = (db_ids, message 404 "Requested team does not exist")
  /\ (forall t, t ∈ teams db_ids -> team_id t <> 4)
  /\ get_team db_ids 1 4 = Ok (Some team_5)
  /\ create int_literal always_valid db_ids (post_scrimmage 1 4 (PyStr "True")) 1 team_1
     = (db_ids, message 400 "Teams do not have submissions").
Proof.
  split.
  { split; [|repeat split]. apply elem_of_cons; right. apply elem_of_cons; now left. }
  split; [vm_compute; reflexivity|].
  split.
  { intros t Ht. unfold db_ids in Ht; simpl in Ht.
    repeat (apply elem_of_cons in Ht as [-> | Ht]; [discriminate|]).
    now apply elem_of_nil in Ht. }
  split; vm_compute; reflexivity.
Qed.

(** Whenever the lookup of the other team inside [create] finds more than one
    team, the answer is the 400 of the [except] clause. *)
Lemma create_two_teams_400
  (int : PyVal -> result Z) (serializer_is_valid : DB -> ScrimmageInput -> bool)
  (db : DB) (request : Request) (league_id : Z) (team : Team)
  (red_v blue_v map_v ranked_v : PyVal) (red_id blue_id map_id : Z) :
  data request !! "red_team" = Some red_v -> int red_v = Ok red_id ->
  data request !! "blue_team" = Some blue_v -> int blue_v = Ok blue_id ->
  data request !! "map" = Some map_v -> int map_v = Ok map_id ->
  data request !! "ranked" = Some ranked_v ->
  team_id team = blue_id ->
  (1 < length (teams_filter db league_id red_id))%nat ->
  create int serializer_is_valid db request league_id team
  = (db, message HTTP_400_BAD_REQUEST "Unknown Error").
Proof.
  intros Hr Hri Hb Hbi Hm Hmi Hk Hteam Htwo.
  apply get_team_InternalError in Htwo.
  unfold create, create_body, getitem.
  rewrite Hr; simpl; rewrite Hri; simpl.
  rewrite Hb; simpl; rewrite Hbi; simpl.
  rewrite Hm; simpl; rewrite Hmi; simpl.
  rewrite Hk; simpl.
  rewrite (bool_decide_eq_true_2 _ Hteam), Htwo. reflexivity.
Qed.

(** C8.  User 5 is a member of two teams of the league.  A request of user 5
    is aborted by [get_permissions] with [InternalError], a server error.
    When team 1 names 5 as the other side, the same lookup is made inside
    [create]: the [InternalError] is caught by [except Exception] and
    answered as a 400 with the message "Unknown Error". *)
Theorem create_answers_internal_error_with_400 :
  let request := post_scrimmage 5 1 (PyStr "True") in
  let view db l t := create int_literal always_valid db request l t in
  get_team db_two_teams 1 5 = Raise InternalError
  /\ get_permissions db_two_teams (mk_request "POST" 5 []) 1 = Raise InternalError
  /\ status_of_outcome (dispatch view db_two_teams (mk_request "POST" 5 []) 1).2 = 500
  /\ create int_literal always_valid db_two_teams request 1 team_1
     = (db_two_teams, message 400 "Unknown Error")
  /\ dispatch view db_two_teams request 1
     = (db_two_teams, Ok (message 400 "Unknown Error"))
  /\ status_of_outcome (dispatch view db_two_teams request 1).2 = 400.
Proof.
  intros request view.
  assert (get_team db_two_teams 1 5 = Raise InternalError) as Hteam.
  { apply get_team_InternalError. vm_compute. lia. }
  assert (create int_literal always_valid db_two_teams request 1 team_1
          = (db_two_teams, message 400 "Unknown Error")) as Hcreate.
  { eapply create_two_teams_400; try reflexivity.
    now apply get_team_InternalError. }
  split; [exact Hteam|].
  split; [vm_compute; reflexivity|].
  split; [vm_compute; reflexivity|].
  split; [exact Hcreate|].
  assert (dispatch view db_two_teams request 1
          = (db_two_teams, Ok (message 400 "Unknown Error"))) as Hdispatch.
  { unfold dispatch. change (get_permissions db_two_teams request 1)
      with (Ok (Some team_1) : result (option Team)).
    unfold view. now rewrite Hcreate. }
  split; [exact Hdispatch|]. now rewrite Hdispatch.
Qed.

(** ** The bracket *)

(** The three games of the specification, under its own reading of best of
    three: two wins in a row end the game after two matches, a game won two
    to one takes three, and a single match decides nothing. *)
Lemma spec_decide_two_wins (m1 m2 : Match) (rest : list Match) :
  match_winner m1 = match_winner m2 ->
  spec_decide [] (m1 :: m2 :: rest) = ([m1; m2], Some (match_winner m1)).
Proof.
  intros E. simpl. rewrite <- E, !Z.eqb_refl. reflexivity.
Qed.

Lemma spec_decide_two_to_one (m1 m2 m3 : Match) :
  match_winner m1 <> match_winner m2 ->
  match_winner m2 = match_winner m3 ->
  spec_decide [] [m1; m2; m3] = ([m1; m2; m3], Some (match_winner m2)).
Proof.
  intros Hne E. simpl. rewrite <- E, !Z.eqb_refl.
  apply Z.eqb_neq in Hne. rewrite Hne. reflexivity.
Qed.

Lemma spec_decide_single (m : Match) :
  spec_decide [] [m] = ([m], None).
Proof. simpl. rewrite Z.eqb_refl. reflexivity. Qed.

(** C1.  [bracket] returns [None] for every tournament and format: its body
    is [pass].  For the tournament of the example the bracket that the
    docstring and the specification describe has, in replay format, two
    replays and winner 1 for the game won twice in a row, three replays and
    winner 2 for the game won two to one, and no winner for the game with a
    single match. *)
Theorem bracket_returns_none :
  (forall self, bracket self = None)
  /\ bracket replay_view = None
  /\ bracket website_view = None
  /\ spec_bracket replay_view =
     Some [ {| round := "3A";
               games :=
                 [ {| index := 0; red_team_json := 1; blue_team_json := 2;
                      replays := ["replay/1.bc18"; "replay/2.bc18"];
                      winner_ids := Some [1; 1]; winner_id := Some 1 |};
                   {| index := 1; red_team_json := 1; blue_team_json := 2;
                      replays := ["replay/4.bc18"; "replay/5.bc18"; "replay/6.bc18"];
                      winner_ids := Some [1; 2; 2]; winner_id := Some 2 |};
                   {| index := 2; red_team_json := 1; blue_team_json := 2;
                      replays := ["replay/7.bc18"];
                      winner_ids := Some [1]; winner_id := None |} ] |} ].
Proof.
  split; [intros self; reflexivity|].
  split; [reflexivity|]. split; [reflexivity|].
  vm_compute. reflexivity.
Qed.

(** * Further properties of the views *)

Import TeamViewSet TeamExamples.

(** ** TeamViewSet: joining and leaving a team *)

Lemma elem_of_save_teams (db : DB) (t' x : Team) :
  x ∈ teams (TeamViewSet.save db t') <->
  exists t, t ∈ teams db /\
            x = if bool_decide (team_id t = team_id t') then t' else t.
Proof.
  unfold TeamViewSet.save; simpl. rewrite list_elem_of_fmap.
  split; intros (t & H1 & H2); exists t; tauto.
Qed.

Lemma save_teams_ids (db : DB) (t' : Team) :
  team_id <$> teams (TeamViewSet.save db t') = team_id <$> teams db.
Proof.
  unfold TeamViewSet.save; simpl. rewrite <- list_fmap_compose.
  apply list_fmap_ext. intros i t _. simpl.
  case_bool_decide; congruence.
Qed.

(** The team [partial_update] works on is a row of the table that is not
    deleted, belongs to the league of the request and has the given key. *)
Lemma get_team_row (db : DB) (league_id pk : Z) (team : Team) :
  head (filter (fun t => team_id t = pk) (TeamViewSet.get_queryset db league_id))
    = Some team ->
  team ∈ teams db /\ deleted team <> true /\ team_league_id team = league_id
  /\ team_id team = pk.
Proof.
  intros H.
  assert (team ∈ filter (fun t => team_id t = pk)
                        (TeamViewSet.get_queryset db league_id)) as Hin.
  { destruct (filter _ _) as [|x l]; [discriminate|].
    injection H as ->. apply elem_of_cons. now left. }
  unfold TeamViewSet.get_queryset, TeamViewSet.queryset in Hin.
  rewrite !list_elem_of_filter in Hin. tauto.
Qed.

(** The test of [create] and of a join on the teams of the user: it passes
    when no team of the league that is not deleted has the user. *)
Lemma not_on_a_team (db : DB) (league_id user_id : Z) :
  ~ (0 < length (filter (fun t => user_id ∈ users t)
                        (TeamViewSet.get_queryset db league_id)))%nat <->
  forall t, t ∈ teams db -> deleted t <> true -> team_league_id t = league_id ->
            user_id ∉ users t.
Proof.
  split.
  - intros H t Ht Hd Hl Hu. apply H.
    assert (t ∈ filter (fun t => user_id ∈ users t)
                       (TeamViewSet.get_queryset db league_id)) as Hin.
    { unfold TeamViewSet.get_queryset, TeamViewSet.queryset.
      rewrite !list_elem_of_filter. tauto. }
    destruct (filter _ _); [now apply elem_of_nil in Hin | simpl; lia].
  - intros H Hlen.
    destruct (filter (fun t => user_id ∈ users t)
                     (TeamViewSet.get_queryset db league_id)) as [|t l] eqn:E;
      [simpl in Hlen; lia|].
    assert (t ∈ t :: l) as Hin by (apply elem_of_cons; now left).
    rewrite <- E in Hin.
    unfold TeamViewSet.get_queryset, TeamViewSet.queryset in Hin.
    rewrite !list_elem_of_filter in Hin.
    destruct Hin as (Hu & Hl & Hd & Ht). now apply (H t).
Qed.

(** Saving a changed row keeps the table as expected, when the new members
    of the row are either old members of it or on no team of its league. *)
Lemma save_keeps_invariant (db : DB) (team t' : Team) :
  team_invariant db ->
  team ∈ teams db ->
  team_id t' = team_id team ->
  team_league_id t' = team_league_id team ->
  (deleted t' = true -> users t' = []) ->
  NoDup (users t') ->
  (length (users t') <= 4)%nat ->
  (forall u, u ∈ users t' ->
     u ∈ users team \/
     forall t, t ∈ teams db -> team_league_id t = team_league_id team -> u ∉ users t) ->
  team_invariant (TeamViewSet.save db t').
Proof.
  intros (Hids & Hdel & Honce & Hone & Hfour) Hteam Hid Hleague Hdel' Honce' Hfour' Hnew.
  repeat split.
  - unfold unique_ids. now rewrite save_teams_ids.
  - intros x (t & Ht & ->)%elem_of_save_teams. case_bool_decide; auto.
  - intros x (t & Ht & ->)%elem_of_save_teams. case_bool_decide; auto.
  - assert (forall t u, t ∈ teams db -> team_id t <> team_id t' ->
              team_league_id t' = team_league_id t ->
              u ∈ users t' -> u ∈ users t -> False) as Hclash.
    { intros t u Ht Hne Hl Hu' Hu.
      destruct (Hnew u Hu') as [Hold | Hnone].
      - assert (team = t) by (apply (Hone team t u); congruence). congruence.
      - apply (Hnone t Ht); congruence. }
    intros x1 x2 u (t1 & Ht1 & ->)%elem_of_save_teams
      (t2 & Ht2 & ->)%elem_of_save_teams.
    repeat case_bool_decide; intros Hl Hu1 Hu2.
    + reflexivity.
    + destruct (Hclash t2 u); auto.
    + destruct (Hclash t1 u); auto.
    + now apply (Hone t1 t2 u).
  - intros x (t & Ht & ->)%elem_of_save_teams. case_bool_decide; auto.
Qed.

Lemma users_add_invariant (db : DB) (team : Team) (user_id : Z) :
  team_invariant db ->
  team ∈ teams db ->
  deleted team <> true ->
  (forall t, t ∈ teams db -> deleted t <> true ->
             team_league_id t = team_league_id team -> user_id ∉ users t) ->
  length (users team) <> 4%nat ->
  team_invariant (TeamViewSet.save db (users_add user_id team)).
Proof.
  intros Hinv Hteam Hdel Hfree Hlen.
  pose proof Hinv as (_ & Hempty & Honce & _ & Hfour).
  assert (user_id ∉ users team) as Hnew by now apply Hfree.
  apply (save_keeps_invariant db team); try assumption; try reflexivity; simpl;
    rewrite (bool_decide_eq_false_2 _ Hnew).
  - intros ?. now destruct (deleted team).
  - apply NoDup_app. split; [now apply Honce|]. split.
    + now intros x Hx ->%list_elem_of_singleton.
    + apply NoDup_singleton.
  - rewrite length_app. simpl. specialize (Hfour team Hteam). lia.
  - intros u [Hu | ->%list_elem_of_singleton]%elem_of_app; [now left|]. right.
    intros t Ht Hl Hu. destruct (deleted t) eqn:Hd.
    + rewrite (Hempty t Ht Hd) in Hu. now apply elem_of_nil in Hu.
    + apply (Hfree t Ht); [congruence | assumption | assumption].
Qed.

Lemma users_remove_invariant (db : DB) (team : Team) (user_id : Z) :
  team_invariant db ->
  team ∈ teams db ->
  team_invariant (TeamViewSet.save db (users_remove user_id team)).
Proof.
  intros Hinv Hteam. pose proof Hinv as (_ & _ & Honce & _ & Hfour).
  apply (save_keeps_invariant db team); try assumption; try reflexivity; simpl.
  - intros Hd%bool_decide_eq_true. now apply nil_length_inv.
  - apply NoDup_filter. now apply Honce.
  - pose proof (length_filter (fun u => u <> user_id) (users team)).
    specialize (Hfour team Hteam). lia.
  - intros u Hu%list_elem_of_filter. left. tauto.
Qed.

Section PartialUpdate.

Variable team_key : Z -> string.
Variable super_update : DB -> Request -> DB * Reply Team.
Variables (db : DB) (request : Request) (user_id league_id pk : Z).

(** X1.  Joining or leaving keeps the team table as expected: ids stay unique,
    deleted teams stay empty, nobody is twice on a team or on two teams of
    a league, and no team grows beyond four members. *)
Theorem partial_update_keeps_invariant :
  team_invariant db ->
  py_eq_str (data_get request "op") "update" = false ->
  team_invariant
    (partial_update team_key super_update db request user_id league_id pk).1.
Proof.
  intros Hinv Hop. unfold partial_update.
  destruct (head _) as [team|] eqn:Hget; [|assumption].
  apply get_team_row in Hget as (Hteam & Hdel & Hleague & Hid).
  rewrite Hop, orb_false_r.
  destruct (py_eq_str (data_get request "op") "join") eqn:Hjoin; simpl.
  - case_bool_decide as Hon; [assumption|].
    destruct (py_eq_str _ (team_key _)); simpl; [|assumption].
    case_bool_decide as Hfull; [assumption|]. simpl.
    apply users_add_invariant; try assumption.
    intros t Ht Hd Hl. apply (not_on_a_team db league_id user_id); auto.
    congruence.
  - destruct (py_eq_str (data_get request "op") "leave") eqn:Hleave; simpl;
      [|assumption].
    case_bool_decide; [assumption|]. simpl.
    now apply users_remove_invariant.
Qed.

End PartialUpdate.

Lemma db_teams_invariant : team_invariant db_teams.
Proof.
  assert (forall t, t ∈ teams db_teams -> t = team_alpha \/ t = team_beta) as Hrows.
  { intros t Ht. unfold db_teams in Ht; simpl in Ht.
    apply elem_of_cons in Ht as [-> | Ht]; [now left|].
    apply elem_of_cons in Ht as [-> | Ht]; [now right|].
    now apply elem_of_nil in Ht. }
  repeat split.
  - unfold unique_ids; simpl. repeat constructor.
    + intros [H | H]%elem_of_cons; [discriminate | now apply elem_of_nil in H].
    + apply not_elem_of_nil.
  - intros t [-> | ->]%Hrows; discriminate.
  - intros t [-> | ->]%Hrows; simpl; repeat constructor;
      rewrite ?elem_of_cons, ?elem_of_nil; intros H; decompose [or] H;
        discriminate || contradiction.
  - intros t1 t2 u [-> | ->]%Hrows [-> | ->]%Hrows _; simpl;
      rewrite ?elem_of_cons, ?elem_of_nil; intros H1 H2;
        decompose [or] H1; decompose [or] H2; subst;
          reflexivity || discriminate || contradiction.
  - intros t [-> | ->]%Hrows; simpl; lia.
Qed.

(** User 30 joins team 2 with its key: the table is still as expected. *)
Lemma partial_update_keeps_invariant_witness :
  (team_invariant db_teams
   /\ py_eq_str (data_get (join_request "key2") "op") "update" = false)
  /\ team_invariant (partial_update_example db_teams (join_request "key2") 30 2).1
  /\ users <$> teams (partial_update_example db_teams (join_request "key2") 30 2).1
     = [[10; 11]; [20; 30]].
Proof.
  assert (py_eq_str (data_get (join_request "key2") "op") "update" = false) as Hop
    by reflexivity.
  split; [split; [exact db_teams_invariant | exact Hop]|].
  split; [|reflexivity].
  exact (partial_update_keeps_invariant key_of no_update db_teams
           (join_request "key2") 30 1 2 db_teams_invariant Hop).
Defined.

(** ** The lookup of a user's team on a table that is as expected *)

Lemma NoDup_all_equal {A : Type} (l : list A) (a : A) :
  NoDup l -> (forall x, x ∈ l -> x = a) -> a ∈ l -> l = [a].
Proof.
  intros Hnd Hall Hin. destruct l as [|x [|y l]].
  - now apply elem_of_nil in Hin.
  - f_equal. apply Hall, elem_of_cons. now left.
  - exfalso. apply NoDup_cons in Hnd as [Hx _]. apply Hx.
    assert (x = a) as -> by (apply Hall, elem_of_cons; now left).
    assert (y = a) as -> by (apply Hall, elem_of_cons; right; apply elem_of_cons; now left).
    apply elem_of_cons. now left.
Qed.

Lemma teams_filter_at_most_one (db : DB) (league_id user_id : Z) :
  unique_ids db -> one_team_per_league db ->
  (length (teams_filter db league_id user_id) <= 1)%nat.
Proof.
  intros Hids Hone. unfold teams_filter.
  assert (NoDup (filter (fun t => team_league_id t = league_id /\ user_id ∈ users t)
                        (teams db))) as Hnd.
  { apply NoDup_filter. now apply (NoDup_fmap_1 team_id). }
  destruct (filter _ (teams db)) as [|t1 [|t2 l]] eqn:E; simpl; try lia.
  exfalso.
  assert (t1 ∈ t1 :: t2 :: l) as H1 by (apply elem_of_cons; now left).
  assert (t2 ∈ t1 :: t2 :: l) as H2
    by (apply elem_of_cons; right; apply elem_of_cons; now left).
  rewrite <- E in H1, H2. apply list_elem_of_filter in H1 as [[? ?] ?].
  apply list_elem_of_filter in H2 as [[? ?] ?].
  assert (t1 = t2) as -> by (apply (Hone t1 t2 user_id); congruence).
  apply NoDup_cons in Hnd as [Hx _]. apply Hx, elem_of_cons. now left.
Qed.

(** X2.  On a table with unique ids where nobody is on two teams of a league,
    [get_team] never raises [InternalError]: it returns the team of the
    league that has the user, or [None] when there is none; and the
    permissions of the submission views, which make the same query, never
    raise it either. *)
Theorem get_team_never_raises (db : DB) (request : Request) (league_id user_id : Z) :
  unique_ids db -> one_team_per_league db ->
  get_team db league_id user_id = Ok (head (teams_filter db league_id user_id))
  /\ ScrimmageViewSet.get_permissions db request league_id <> Raise InternalError
  /\ SubmissionViewSet.get_permissions db request league_id <> Raise InternalError.
Proof.
  intros Hids Hone.
  assert (forall u, get_team db league_id u = Ok (head (teams_filter db league_id u)))
    as Hget.
  { intros u. pose proof (teams_filter_at_most_one db league_id u Hids Hone) as Hlen.
    unfold get_team. destruct (teams_filter db league_id u) as [|t1 [|t2 l]];
      simpl in *; try reflexivity; lia. }
  split; [apply Hget|]. split.
  - unfold ScrimmageViewSet.get_permissions.
    destruct (get_league db league_id); [|discriminate].
    destruct (_ && _); [discriminate|].
    destruct (user request) as [u|]; [|discriminate].
    rewrite Hget. simpl. destruct (head _); discriminate.
  - unfold SubmissionViewSet.get_permissions.
    destruct (get_league db league_id); [|discriminate].
    destruct (_ && _); [discriminate|].
    destruct (user request) as [u|]; [|discriminate].
    pose proof (teams_filter_at_most_one db league_id u Hids Hone) as Hlen.
    unfold teams_filter in Hlen.
    case_bool_decide; [discriminate|].
    case_bool_decide; [lia|].
    destruct (filter _ (teams db)); discriminate.
Qed.

Lemma get_team_never_raises_witness :
  (unique_ids db_teams /\ one_team_per_league db_teams)
  /\ get_team db_teams 1 20 = Ok (Some team_beta)
  /\ get_team db_teams 1 30 = Ok None.
Proof.
  destruct db_teams_invariant as (Hids & _ & _ & Hone & _).
  split; [tauto|].
  split.
  - exact (proj1 (get_team_never_raises db_teams patch_by_20 1 20 Hids Hone)).
  - exact (proj1 (get_team_never_raises db_teams patch_by_20 1 30 Hids Hone)).
Defined.

(** ** What a join and a leave do *)

(** With unique ids, two rows of the table with the same id are one row. *)
Lemma unique_ids_row (db : DB) (t team : Team) :
  unique_ids db -> t ∈ teams db -> team ∈ teams db ->
  team_id t = team_id team -> t = team.
Proof.
  intros Hids [i1 Hi1]%list_elem_of_lookup_1 [i2 Hi2]%list_elem_of_lookup_1 Hsame.
  assert (i1 = i2) as ->.
  { apply (NoDup_lookup _ _ _ (team_id team) Hids);
      rewrite list_lookup_fmap; [rewrite Hi1 | rewrite Hi2]; simpl; congruence. }
  congruence.
Qed.

Section JoinLeave.

Variable team_key : Z -> string.
Variable super_update : DB -> Request -> DB * Reply Team.

Lemma py_eq_str_other (v : PyVal) (a b : string) :
  py_eq_str v a = true -> a <> b -> py_eq_str v b = false.
Proof.
  intros Ha Hne. apply py_eq_str_true in Ha as ->. simpl.
  apply bool_decide_eq_false. congruence.
Qed.

(** A join that answers 200 has found the team, has found the user on no
    team of the league, the key right and fewer than four members. *)
Lemma join_succeeds (db : DB) (request : Request) (user_id league_id pk : Z) :
  py_eq_str (data_get request "op") "join" = true ->
  reply_status (partial_update team_key super_update db request user_id league_id pk).2
    = HTTP_200_OK ->
  exists team,
    head (filter (fun t => team_id t = pk) (TeamViewSet.get_queryset db league_id))
      = Some team
    /\ (forall t, t ∈ teams db -> deleted t <> true ->
                  team_league_id t = league_id -> user_id ∉ users t)
    /\ py_eq_str (data_get request "team_key") (team_key pk) = true
    /\ length (users team) <> 4%nat
    /\ partial_update team_key super_update db request user_id league_id pk
       = (TeamViewSet.save db (users_add user_id team),
          {| reply_status := HTTP_200_OK;
             reply_body := ReplyData (users_add user_id team) |}).
Proof.
  intros Hop. unfold partial_update.
  destruct (head _) as [team|] eqn:Hget; [|discriminate].
  rewrite Hop. simpl.
  pose proof (get_team_row _ _ _ _ Hget) as (_ & _ & _ & Hid). rewrite Hid.
  case_bool_decide as Hon; [discriminate|].
  destruct (py_eq_str _ (team_key pk)) eqn:Hkey; simpl; [|discriminate].
  case_bool_decide as Hfull; [discriminate|]. intros _.
  exists team. repeat split; try assumption.
  now apply not_on_a_team.
Qed.

(** A leave that answers 200 has found the team with the user on it. *)
Lemma leave_succeeds (db : DB) (request : Request) (user_id league_id pk : Z) :
  py_eq_str (data_get request "op") "leave" = true ->
  reply_status (partial_update team_key super_update db request user_id league_id pk).2
    = HTTP_200_OK ->
  exists team,
    head (filter (fun t => team_id t = pk) (TeamViewSet.get_queryset db league_id))
      = Some team
    /\ user_id ∈ users team
    /\ partial_update team_key super_update db request user_id league_id pk
       = (TeamViewSet.save db (users_remove user_id team),
          {| reply_status := HTTP_200_OK;
             reply_body := ReplyData (users_remove user_id team) |}).
Proof.
  intros Hop. unfold partial_update.
  destruct (head _) as [team|] eqn:Hget; [|discriminate].
  rewrite Hop, (py_eq_str_other _ "leave" "join" Hop) by discriminate. simpl.
  case_bool_decide as Hmember; [discriminate|]. intros _.
  exists team. repeat split.
  destruct (filter (fun u => u = user_id) (users team)) as [|u l] eqn:E;
    [contradiction|].
  assert (u ∈ u :: l) as Hin by (apply elem_of_cons; now left).
  rewrite <- E in Hin. apply list_elem_of_filter in Hin as [-> ?]. assumption.
Qed.

(** The row of a team after [save], seen through the query of
    [partial_update]. *)
Lemma saved_team_row (db : DB) (team t' : Team) (league_id : Z) :
  team ∈ teams db ->
  team_id t' = team_id team ->
  team_league_id t' = league_id ->
  deleted t' <> true ->
  head (filter (fun t => team_id t = team_id team)
               (TeamViewSet.get_queryset (TeamViewSet.save db t') league_id))
    = Some t'.
Proof.
  intros Hteam Hid Hleague Hdel.
  destruct (filter _ _) as [|x l] eqn:E.
  - assert (t' ∈ filter (fun t => team_id t = team_id team)
                  (TeamViewSet.get_queryset (TeamViewSet.save db t') league_id)) as Hin.
    { unfold TeamViewSet.get_queryset, TeamViewSet.queryset.
      rewrite !list_elem_of_filter. repeat split; try assumption.
      apply elem_of_save_teams. exists team. split; [assumption|].
      now rewrite (bool_decide_eq_true_2 _ (eq_sym Hid)). }
    rewrite E in Hin. now apply elem_of_nil in Hin.
  - simpl. f_equal.
    assert (x ∈ x :: l) as Hin by (apply elem_of_cons; now left).
    rewrite <- E in Hin.
    unfold TeamViewSet.get_queryset, TeamViewSet.queryset in Hin.
    rewrite !list_elem_of_filter in Hin.
    destruct Hin as (Hx & _ & _ & (t & Ht & ->)%elem_of_save_teams).
    case_bool_decide; [reflexivity | congruence].
Qed.

(** Saving a row as it is changes nothing when ids are unique. *)
Lemma save_same_row (db : DB) (team : Team) :
  unique_ids db -> team ∈ teams db ->
  (fun t => if bool_decide (team_id t = team_id team) then team else t) <$> teams db
  = teams db.
Proof.
  intros Hids Hteam. rewrite <- (list_fmap_id (teams db)) at 2.
  apply list_fmap_ext. intros i t Hi. simpl.
  case_bool_decide as Heq; [|reflexivity].
  apply list_elem_of_lookup_2 in Hi.
  unfold unique_ids in Hids.
  apply list_elem_of_lookup_1 in Hi as [i1 Hi1].
  apply list_elem_of_lookup_1 in Hteam as [i2 Hi2].
  assert (i2 = i1) as ->.
  { apply (NoDup_lookup _ _ _ (team_id team) Hids);
      rewrite list_lookup_fmap; [rewrite Hi2 | rewrite Hi1]; simpl; congruence. }
  congruence.
Qed.

End JoinLeave.

Lemma filter_all {A : Type} (P : A -> Prop) `{forall x, Decision (P x)} (l : list A) :
  (forall x, x ∈ l -> P x) -> filter P l = l.
Proof.
  induction l as [|a l IH]; intros Hall; [reflexivity|].
  rewrite filter_cons_True by (apply Hall, elem_of_cons; now left).
  f_equal. apply IH. intros x Hx. apply Hall, elem_of_cons. now right.
Qed.

Section JoinLeaveTheorems.

Variable team_key : Z -> string.
Variable super_update : DB -> Request -> DB * Reply Team.

(** X3.  A user joins a team that has members already, and leaves it again: the
    database is back where it was, and the second reply shows the team as it
    was before the join. *)
Theorem join_then_leave_restores
  (db : DB) (join leave : Request) (user_id league_id pk : Z) :
  unique_ids db ->
  py_eq_str (data_get join "op") "join" = true ->
  py_eq_str (data_get leave "op") "leave" = true ->
  reply_status (partial_update team_key super_update db join user_id league_id pk).2
    = HTTP_200_OK ->
  (forall team, team ∈ teams db -> team_id team = pk -> users team <> []) ->
  exists team,
    team ∈ teams db /\ team_id team = pk
    /\ partial_update team_key super_update
         (partial_update team_key super_update db join user_id league_id pk).1
         leave user_id league_id pk
       = (db, {| reply_status := HTTP_200_OK; reply_body := ReplyData team |}).
Proof.
  intros Hids Hjoin Hleave Hok Hmembers.
  destruct (join_succeeds team_key super_update db join user_id league_id pk Hjoin Hok)
    as (team & Hget & Hfree & _ & _ & ->).
  pose proof (get_team_row _ _ _ _ Hget) as (Hteam & Hdel & Hleague & Hid).
  exists team. split; [assumption|]. split; [assumption|]. simpl.
  assert (user_id ∉ users team) as Hnew by now apply Hfree.
  assert (users (users_add user_id team) = users team ++ [user_id]) as Husers
    by (simpl; now rewrite (bool_decide_eq_false_2 _ Hnew)).
  assert (users_remove user_id (users_add user_id team) = team) as Hback.
  { unfold users_remove. rewrite Husers, filter_app.
    assert (filter (fun u => u <> user_id) (users team) = users team) as ->.
    { apply filter_all. intros u Hu ->. contradiction. }
    rewrite filter_cons_False, filter_nil, app_nil_r by (intros H; now apply H).
    rewrite bool_decide_eq_false_2.
    - destruct team as [i l us ar au d]; simpl in *.
      destruct d; [contradiction | reflexivity].
    - intros Hlen%nil_length_inv. now apply (Hmembers team). }
  unfold partial_update at 1.
  rewrite <- Hid.
  rewrite (saved_team_row db team (users_add user_id team) league_id)
    by (assumption || reflexivity).
  rewrite Hleave, (py_eq_str_other _ "leave" "join" Hleave) by discriminate. simpl.
  rewrite (bool_decide_eq_false_2 (user_id ∈ users team)) by assumption.
  rewrite bool_decide_eq_false_2.
  2:{ rewrite filter_app, filter_cons_True, filter_nil by reflexivity.
      rewrite length_app. simpl. lia. }
  fold (users_add user_id team). rewrite Hback. f_equal.
  unfold TeamViewSet.save; simpl. rewrite <- list_fmap_compose.
  assert (forall t : Team,
            ((fun t => if bool_decide (team_id t = team_id team) then team else t)
             ∘ (fun t => if bool_decide (team_id t = team_id team)
                         then users_add user_id team else t)) t
            = if bool_decide (team_id t = team_id team) then team else t) as Hcomp.
  { intros t. simpl.
    destruct (bool_decide (team_id t = team_id team)) eqn:E; simpl.
    - now rewrite bool_decide_eq_true_2.
    - now rewrite E. }
  rewrite (list_fmap_ext _ _ (teams db) (fun _ t _ => Hcomp t)).
  rewrite (save_same_row db team Hids Hteam). now destruct db.
Qed.

(** X4.  On a team table that is as expected ([team_invariant]), after a join
    that answers 200 the user, who was on no team of the league, is on the
    team of the reply: [get_team], which answered [None] before, answers
    that team. *)
Theorem join_makes_member
  (db : DB) (request : Request) (user_id league_id pk : Z) :
  team_invariant db ->
  py_eq_str (data_get request "op") "join" = true ->
  reply_status (partial_update team_key super_update db request user_id league_id pk).2
    = HTTP_200_OK ->
  get_team db league_id user_id = Ok None
  /\ exists team',
       (partial_update team_key super_update db request user_id league_id pk).2
       = {| reply_status := HTTP_200_OK; reply_body := ReplyData team' |}
       /\ team_id team' = pk /\ team_league_id team' = league_id
       /\ user_id ∈ users team'
       /\ get_team
            (partial_update team_key super_update db request user_id league_id pk).1
            league_id user_id
          = Ok (Some team').
Proof.
  intros Hinv Hop Hok.
  destruct (join_succeeds team_key super_update db request user_id league_id pk Hop Hok)
    as (team & Hget & Hfree & _ & Hlen & ->).
  pose proof (get_team_row _ _ _ _ Hget) as (Hteam & Hdel & Hleague & Hid).
  pose proof Hinv as (Hids & Hempty & _ & Hone & _).
  assert (forall t, t ∈ teams db -> team_league_id t = league_id -> user_id ∉ users t)
    as Hnone.
  { intros t Ht Hl Hu. destruct (deleted t) eqn:Hd.
    - rewrite (Hempty t Ht Hd) in Hu. now apply elem_of_nil in Hu.
    - apply (Hfree t Ht); [congruence | assumption | assumption]. }
  split.
  { unfold get_team. destruct (teams_filter db league_id user_id) as [|t l] eqn:E;
      [reflexivity|].
    assert (t ∈ t :: l) as Hin by (apply elem_of_cons; now left).
    rewrite <- E in Hin. apply list_elem_of_filter in Hin as [[? ?] ?].
    now destruct (Hnone t). }
  exists (users_add user_id team). simpl.
  assert (user_id ∈ users (users_add user_id team)) as Hadded.
  { simpl. case_bool_decide; [assumption|]. apply elem_of_app. right.
    apply elem_of_cons. now left. }
  repeat split; try assumption.
  assert (team_invariant (TeamViewSet.save db (users_add user_id team)))
    as (Hids' & _).
  { apply users_add_invariant; try assumption.
    intros t Ht _ Hl. apply Hnone; congruence. }
  unfold get_team.
  rewrite (NoDup_all_equal
             (teams_filter (TeamViewSet.save db (users_add user_id team))
                           league_id user_id)
             (users_add user_id team)); [reflexivity| | |].
  - apply NoDup_filter. now apply (NoDup_fmap_1 team_id).
  - intros x [[Hl Hu] (t & Ht & ->)%elem_of_save_teams]%list_elem_of_filter.
    case_bool_decide; [reflexivity|]. now destruct (Hnone t).
  - apply list_elem_of_filter. split; [split; assumption|].
    apply elem_of_save_teams. exists team. split; [assumption|].
    now rewrite bool_decide_eq_true_2.
Qed.

(** X5.  On a team table that is as expected ([team_invariant]), after a leave
    that answers 200 the user is on no team of the league; the team is
    marked deleted exactly when nobody is left on it, and a deleted team is
    not found by any later request. *)
Theorem leave_removes_member
  (db : DB) (request : Request) (user_id league_id pk : Z) :
  team_invariant db ->
  py_eq_str (data_get request "op") "leave" = true ->
  reply_status (partial_update team_key super_update db request user_id league_id pk).2
    = HTTP_200_OK ->
  exists team',
    (partial_update team_key super_update db request user_id league_id pk).2
    = {| reply_status := HTTP_200_OK; reply_body := ReplyData team' |}
    /\ (user_id ∉ users team')
    /\ (deleted team' = true <-> users team' = [])
    /\ get_team
         (partial_update team_key super_update db request user_id league_id pk).1
         league_id user_id
       = Ok None
    /\ (users team' = [] ->
        forall request' user_id',
          partial_update team_key super_update
            (partial_update team_key super_update db request user_id league_id pk).1
            request' user_id' league_id pk
          = ((partial_update team_key super_update db request user_id league_id pk).1,
             reply_message HTTP_404_NOT_FOUND "Team not found")).
Proof.
  intros Hinv Hop Hok.
  destruct (leave_succeeds team_key super_update db request user_id league_id pk Hop Hok)
    as (team & Hget & Hmember & ->).
  pose proof (get_team_row _ _ _ _ Hget) as (Hteam & Hdel & Hleague & Hid).
  pose proof Hinv as (Hids & Hempty & _ & Hone & _).
  exists (users_remove user_id team). simpl.
  split; [reflexivity|].
  split; [intros [H _]%list_elem_of_filter; now apply H|].
  split.
  { rewrite bool_decide_eq_true. split; [apply nil_length_inv | now intros ->]. }
  split.
  { unfold get_team.
    destruct (teams_filter _ league_id user_id) as [|x l] eqn:E; [reflexivity|].
    exfalso.
    assert (x ∈ x :: l) as Hin by (apply elem_of_cons; now left).
    rewrite <- E in Hin.
    apply list_elem_of_filter in Hin as [[Hl Hu] (t & Ht & ->)%elem_of_save_teams].
    case_bool_decide as Heq.
    - simpl in Hu. apply list_elem_of_filter in Hu as [Hne _]. now apply Hne.
    - apply Heq. simpl.
      assert (t = team) as -> by (apply (Hone t team user_id); congruence).
      reflexivity. }
  intros Hnobody request' user_id'. unfold partial_update at 1.
  destruct (head (filter (fun t => team_id t = pk)
                         (TeamViewSet.get_queryset
                            (TeamViewSet.save db (users_remove user_id team))
                            league_id))) as [x|] eqn:E; [|reflexivity].
  exfalso.
  apply get_team_row in E as ((t & Ht & ->)%elem_of_save_teams & Hd & _ & Hx).
  case_bool_decide as Heq.
  - apply Hd. simpl. apply bool_decide_eq_true. now rewrite Hnobody.
  - apply Heq. simpl. congruence.
Qed.

(** X6.  A join or a leave that does not answer 200 leaves the database as it
    was. *)
Theorem partial_update_failure_changes_nothing
  (db : DB) (request : Request) (user_id league_id pk : Z) :
  py_eq_str (data_get request "op") "update" = false ->
  reply_status (partial_update team_key super_update db request user_id league_id pk).2
    <> HTTP_200_OK ->
  (partial_update team_key super_update db request user_id league_id pk).1 = db.
Proof.
  intros Hop. unfold partial_update.
  destruct (head _) as [team|]; [|reflexivity].
  rewrite Hop, orb_false_r.
  destruct (py_eq_str (data_get request "op") "join"); simpl.
  - repeat (case_bool_decide || destruct (py_eq_str _ _)); simpl;
      intros Hstatus; reflexivity || now destruct Hstatus.
  - destruct (py_eq_str (data_get request "op") "leave"); simpl; [|reflexivity].
    case_bool_decide; simpl; intros Hstatus; reflexivity || now destruct Hstatus.
Qed.

(** X21.  On a team table with unique ids, a join or a leave changes nothing
    but the membership of the user who asks: the table has the same rows in
    the same places, every row but that of the team is as it was, and in the
    row of the team the id, the league and the flags are as they were and
    every other user is a member after the call exactly if the user was one
    before; the other tables are not touched. *)
Theorem partial_update_touches_only_requester
  (db : DB) (request : Request) (user_id league_id pk : Z) :
  unique_ids db ->
  py_eq_str (data_get request "op") "update" = false ->
  let db' := (partial_update team_key super_update db request user_id league_id pk).1 in
  (leagues db' = leagues db /\ submissions db' = submissions db
   /\ maps db' = maps db /\ scrimmages db' = scrimmages db
   /\ tournaments db' = tournaments db)
  /\ length (teams db') = length (teams db)
  /\ forall i t, teams db !! i = Some t ->
       exists t', teams db' !! i = Some t'
         /\ (team_id t <> pk -> t' = t)
         /\ team_id t' = team_id t /\ team_league_id t' = team_league_id t
         /\ auto_accept_ranked t' = auto_accept_ranked t
         /\ auto_accept_unranked t' = auto_accept_unranked t
         /\ forall u, u <> user_id -> (u ∈ users t' <-> u ∈ users t).
Proof.
  intros Hids Hop db'. subst db'.
  assert (forall team'' team,
            team ∈ teams db -> team_id team = pk ->
            team_id team'' = team_id team ->
            team_league_id team'' = team_league_id team ->
            auto_accept_ranked team'' = auto_accept_ranked team ->
            auto_accept_unranked team'' = auto_accept_unranked team ->
            (forall u, u <> user_id -> (u ∈ users team'' <-> u ∈ users team)) ->
            length (teams (TeamViewSet.save db team'')) = length (teams db)
            /\ forall i t, teams db !! i = Some t ->
                 exists t', teams (TeamViewSet.save db team'') !! i = Some t'
                   /\ (team_id t <> pk -> t' = t)
                   /\ team_id t' = team_id t /\ team_league_id t' = team_league_id t
                   /\ auto_accept_ranked t' = auto_accept_ranked t
                   /\ auto_accept_unranked t' = auto_accept_unranked t
                   /\ forall u, u <> user_id -> (u ∈ users t' <-> u ∈ users t))
    as Hsave.
  { intros team'' team Hteam Hid Hid' Hl Har Hau Hu.
    split; [unfold TeamViewSet.save; simpl; apply length_fmap|].
    intros i t Hi. unfold TeamViewSet.save; simpl.
    rewrite list_lookup_fmap, Hi. simpl.
    case_bool_decide as Hsame.
    - assert (t = team) as ->.
      { apply (unique_ids_row db); try assumption; [|congruence].
        apply list_elem_of_lookup. now exists i. }
      exists team''. split; [reflexivity|].
      split; [intros Hne; congruence|]. repeat split; auto; apply Hu; auto.
    - exists t. split; [reflexivity|]. repeat split; auto. }
  assert (length (teams db) = length (teams db)
          /\ forall i t, teams db !! i = Some t ->
               exists t', teams db !! i = Some t'
                 /\ (team_id t <> pk -> t' = t)
                 /\ team_id t' = team_id t /\ team_league_id t' = team_league_id t
                 /\ auto_accept_ranked t' = auto_accept_ranked t
                 /\ auto_accept_unranked t' = auto_accept_unranked t
                 /\ forall u, u <> user_id -> (u ∈ users t' <-> u ∈ users t))
    as Hsame.
  { split; [reflexivity|]. intros i t Hi. exists t. repeat split; auto. }
  unfold partial_update.
  destruct (head _) as [team|] eqn:Hget; [|split; [repeat split | exact Hsame]].
  apply get_team_row in Hget as (Hteam & _ & _ & Hid).
  rewrite Hop, orb_false_r.
  destruct (py_eq_str (data_get request "op") "join"); simpl.
  - case_bool_decide; [split; [repeat split | exact Hsame]|].
    destruct (py_eq_str _ (team_key _)); simpl; [|split; [repeat split | exact Hsame]].
    case_bool_decide; [split; [repeat split | exact Hsame]|].
    split; [repeat split|]. apply (Hsave _ team); try assumption; try reflexivity.
    intros u Hu. simpl. case_bool_decide; [reflexivity|].
    rewrite elem_of_app, list_elem_of_singleton. tauto.
  - destruct (py_eq_str (data_get request "op") "leave"); simpl;
      [|split; [repeat split | exact Hsame]].
    case_bool_decide; [split; [repeat split | exact Hsame]|].
    split; [repeat split|]. apply (Hsave _ team); try assumption; try reflexivity.
    intros u Hu. simpl. rewrite list_elem_of_filter. tauto.
Qed.

End JoinLeaveTheorems.

(** User 30 joins team 2 and leaves it again. *)
Lemma join_then_leave_restores_witness :
  (unique_ids db_teams
   /\ py_eq_str (data_get (join_request "key2") "op") "join" = true
   /\ py_eq_str (data_get leave_request "op") "leave" = true
   /\ reply_status (partial_update_example db_teams (join_request "key2") 30 2).2
      = HTTP_200_OK)
  /\ exists team,
       team ∈ teams db_teams /\ team_id team = 2
       /\ partial_update_example
            (partial_update_example db_teams (join_request "key2") 30 2).1
            leave_request 30 2
          = (db_teams, {| reply_status := HTTP_200_OK; reply_body := ReplyData team |}).
Proof.
  pose proof db_teams_invariant as (Hids & _).
  assert (forall team, team ∈ teams db_teams -> team_id team = 2 -> users team <> [])
    as Hmembers.
  { intros team Ht Hid. unfold db_teams in Ht; simpl in Ht.
    apply elem_of_cons in Ht as [-> | Ht]; [discriminate|].
    apply elem_of_cons in Ht as [-> | Ht]; [discriminate|].
    now apply elem_of_nil in Ht. }
  split; [repeat split; assumption || reflexivity|].
  exact (join_then_leave_restores key_of no_update db_teams (join_request "key2")
           leave_request 30 1 2 Hids eq_refl eq_refl eq_refl Hmembers).
Defined.

Lemma join_makes_member_witness :
  (team_invariant db_teams
   /\ py_eq_str (data_get (join_request "key2") "op") "join" = true
   /\ reply_status (partial_update_example db_teams (join_request "key2") 30 2).2
      = HTTP_200_OK)
  /\ get_team db_teams 1 30 = Ok None
  /\ exists team',
       (partial_update_example db_teams (join_request "key2") 30 2).2
       = {| reply_status := HTTP_200_OK; reply_body := ReplyData team' |}
       /\ team_id team' = 2 /\ team_league_id team' = 1
       /\ 30 ∈ users team'
       /\ get_team (partial_update_example db_teams (join_request "key2") 30 2).1 1 30
          = Ok (Some team').
Proof.
  split; [split; [exact db_teams_invariant | split; reflexivity]|].
  exact (join_makes_member key_of no_update db_teams (join_request "key2") 30 1 2
           db_teams_invariant eq_refl eq_refl).
Defined.

(** User 20, the only member of team 2, leaves it. *)
Lemma leave_removes_member_witness :
  (team_invariant db_teams
   /\ py_eq_str (data_get leave_request "op") "leave" = true
   /\ reply_status (partial_update_example db_teams leave_request 20 2).2 = HTTP_200_OK)
  /\ exists team',
       (partial_update_example db_teams leave_request 20 2).2
       = {| reply_status := HTTP_200_OK; reply_body := ReplyData team' |}
       /\ (20 ∉ users team')
       /\ (deleted team' = true <-> users team' = [])
       /\ get_team (partial_update_example db_teams leave_request 20 2).1 1 20 = Ok None
       /\ (users team' = [] ->
           forall request' user_id',
             partial_update_example (partial_update_example db_teams leave_request 20 2).1
               request' user_id' 2
             = ((partial_update_example db_teams leave_request 20 2).1,
                reply_message HTTP_404_NOT_FOUND "Team not found")).
Proof.
  split; [split; [exact db_teams_invariant | split; reflexivity]|].
  exact (leave_removes_member key_of no_update db_teams leave_request 20 1 2
           db_teams_invariant eq_refl eq_refl).
Defined.

(** User 30 tries to join team 2 with the key of team 1. *)
Lemma partial_update_failure_changes_nothing_witness :
  (py_eq_str (data_get (join_request "key1") "op") "update" = false
   /\ reply_status (partial_update_example db_teams (join_request "key1") 30 2).2
      <> HTTP_200_OK)
  /\ (partial_update_example db_teams (join_request "key1") 30 2).2
     = reply_message HTTP_400_BAD_REQUEST "Invalid team key"
  /\ (partial_update_example db_teams (join_request "key1") 30 2).1 = db_teams.
Proof.
  assert (reply_status (partial_update_example db_teams (join_request "key1") 30 2).2
          <> HTTP_200_OK) as Hfail by discriminate.
  split; [split; [reflexivity | exact Hfail]|].
  split; [reflexivity|].
  exact (partial_update_failure_changes_nothing key_of no_update db_teams (join_request "key1") 30 1 2
           eq_refl Hfail).
Defined.

(** ** Creating a team *)

Section TeamCreate.

Variable name : Z -> string.
Variable char_value : PyVal -> string.
Variable serializer_is_valid : DB -> TeamInput -> bool.
Variable serializer_save : DB -> TeamInput -> result (DB * Team).

(** X7.  A team is created only for a request that gives a name, by a user who
    is on no team of the league, under a name no team of the league has
    (deleted teams apart); the database after the call is the one the
    serializer has saved, and any other answer leaves it as it was. *)
Theorem team_create_checks (db : DB) (request : Request) (user_id league_id : Z) :
  let result :=
    TeamViewSet.create name char_value serializer_is_valid serializer_save
      db request user_id league_id in
  (reply_status result.2 <> HTTP_201_CREATED -> result.1 = db)
  /\ (reply_status result.2 = HTTP_201_CREATED ->
      data_get request "name" <> PyNone
      /\ (forall t, t ∈ teams db -> deleted t <> true ->
                    team_league_id t = league_id -> user_id ∉ users t)
      /\ (forall t, t ∈ teams db -> deleted t <> true ->
                    team_league_id t = league_id ->
                    name (team_id t) <> char_value (data_get request "name"))
      /\ exists row,
           serializer_save db {| input_league := league_id;
                                 input_name := data_get request "name";
                                 input_users := [user_id] |}
           = Ok (result.1, row)
           /\ result.2 = {| reply_status := HTTP_201_CREATED;
                            reply_body := ReplyData row |}).
Proof.
  intros result. subst result. unfold TeamViewSet.create.
  destruct (data_get request "name") as [| b | z | s] eqn:Hname; simpl;
    try (split; [reflexivity | discriminate]).
  all: case_bool_decide as Hon; [split; [reflexivity | discriminate]|].
  all: case_bool_decide as Hname'; [split; [reflexivity | discriminate]|].
  all: destruct (serializer_is_valid db _); [|split; [reflexivity | discriminate]].
  all: destruct (serializer_save db _) as [[db' row]|e];
    [|split; [reflexivity | discriminate]].
  all: split; [intros H; now destruct H|]; intros _.
  all: split; [discriminate|].
  all: split; [now apply not_on_a_team|].
  all: split; [|exists row; split; reflexivity].
  all: intros t Ht Hd Hl Hsame; apply Hname';
    match type of Hsame with
    | _ = ?v =>
        assert (t ∈ filter (fun t => name (team_id t) = v)
                           (TeamViewSet.get_queryset db league_id)) as Hin
          by (unfold TeamViewSet.get_queryset, TeamViewSet.queryset;
              rewrite !list_elem_of_filter; tauto);
        destruct (filter (fun t => name (team_id t) = v)
                         (TeamViewSet.get_queryset db league_id));
          [now apply elem_of_nil in Hin | simpl; lia]
    end.
Qed.

End TeamCreate.

(** User 30, who is on no team, creates the team "gamma". *)
Lemma team_create_checks_witness :
  reply_status (create_example db_teams (create_request "gamma") 30).2 = HTTP_201_CREATED
  /\ (forall t, t ∈ teams db_teams -> deleted t <> true ->
                team_league_id t = 1 -> 30 ∉ users t)
  /\ users <$> teams (create_example db_teams (create_request "gamma") 30).1
     = [[10; 11]; [20]; [30]].
Proof.
  split; [reflexivity|]. split; [|reflexivity].
  apply (proj2 (team_create_checks name_of char_of any_valid save_as_9 db_teams
                  (create_request "gamma") 30 1) eq_refl).
Defined.

(** ** The order of the query sets *)

Lemma insert_desc_perm (s : Submission) (l : list Submission) :
  insert_desc s l ≡ₚ s :: l.
Proof.
  induction l as [|x l IH]; simpl; [reflexivity|].
  destruct (submitted_at x <=? submitted_at s); [reflexivity|].
  rewrite IH. apply Permutation_swap.
Qed.

Lemma order_by_submitted_at_desc_perm (l : list Submission) :
  order_by_submitted_at_desc l ≡ₚ l.
Proof.
  induction l as [|s l IH]; simpl; [reflexivity|].
  now rewrite insert_desc_perm, IH.
Qed.

Lemma insert_desc_sorted (s : Submission) (l : list Submission) :
  StronglySorted later_first l -> StronglySorted later_first (insert_desc s l).
Proof.
  induction 1 as [|x l Hl IH Hall]; simpl.
  - repeat constructor.
  - destruct (Z.leb_spec (submitted_at x) (submitted_at s)).
    + constructor; [now constructor|]. constructor; [assumption|].
      eapply Forall_impl; [exact Hall|]. unfold later_first. intros y Hy. lia.
    + constructor; [assumption|].
      rewrite insert_desc_perm. constructor; [unfold later_first; lia | assumption].
Qed.

Lemma order_by_submitted_at_desc_sorted (l : list Submission) :
  StronglySorted later_first (order_by_submitted_at_desc l).
Proof.
  induction l as [|s l IH]; simpl; [constructor | now apply insert_desc_sorted].
Qed.

Lemma insert_desc_front (s : Submission) (l : list Submission) :
  Forall (fun y => submitted_at y <= submitted_at s) l -> insert_desc s l = s :: l.
Proof.
  destruct 1 as [|x l Hx _]; simpl; [reflexivity|].
  now rewrite (proj2 (Z.leb_le _ _) Hx).
Qed.

(** Filtering commutes with the ordering. *)
Lemma filter_insert_desc (P : Submission -> Prop) `{forall x, Decision (P x)}
  (s : Submission) (l : list Submission) :
  StronglySorted later_first l ->
  filter P (insert_desc s l)
  = if decide (P s) then insert_desc s (filter P l) else filter P l.
Proof.
  induction 1 as [|x l Hl IH Hall]; simpl.
  - rewrite filter_cons, filter_nil. destruct (decide (P s)); reflexivity.
  - destruct (Z.leb_spec (submitted_at x) (submitted_at s)) as [Hle | Hlt].
    + rewrite (filter_cons _ s). destruct (decide (P s)); [|reflexivity].
      symmetry. apply insert_desc_front.
      apply Forall_forall. intros y [_ Hy]%list_elem_of_filter.
      apply elem_of_cons in Hy as [-> | Hy]; [assumption|].
      rewrite Forall_forall in Hall. specialize (Hall y Hy).
      unfold later_first in Hall. lia.
    + rewrite !(filter_cons _ x), IH.
      destruct (decide (P x)), (decide (P s)); simpl; try reflexivity.
      now rewrite (proj2 (Z.leb_gt _ _) Hlt).
Qed.

Lemma filter_order_by_submitted_at_desc (P : Submission -> Prop)
  `{forall x, Decision (P x)} (l : list Submission) :
  filter P (order_by_submitted_at_desc l) = order_by_submitted_at_desc (filter P l).
Proof.
  induction l as [|s l IH]; simpl; [reflexivity|].
  rewrite filter_insert_desc by apply order_by_submitted_at_desc_sorted.
  rewrite filter_cons, IH. destruct (decide (P s)); reflexivity.
Qed.

(** ** SubmissionViewSet *)

(** X8.  The permissions of the submission views are those of the scrimmage
    views: the two methods, written separately, answer every request alike. *)
Theorem submission_permissions_as_scrimmage (db : DB) (request : Request) (league_id : Z) :
  SubmissionViewSet.get_permissions db request league_id
  = ScrimmageViewSet.get_permissions db request league_id.
Proof.
  unfold SubmissionViewSet.get_permissions, ScrimmageViewSet.get_permissions.
  destruct (get_league db league_id) as [lg|]; [|reflexivity].
  destruct (_ && _); [reflexivity|].
  destruct (user request) as [u|]; [|reflexivity].
  unfold get_team, teams_filter.
  destruct (filter _ (teams db)) as [|t1 [|t2 l]]; reflexivity.
Qed.

(** X9.  The submissions a team lists are its submissions, each once, the latest
    first. *)
Theorem submission_queryset_ordered (db : DB) (team : Team) :
  SubmissionViewSet.get_queryset db team
    ≡ₚ filter (fun s => submission_team_id s = team_id team) (submissions db)
  /\ StronglySorted later_first (SubmissionViewSet.get_queryset db team).
Proof.
  unfold SubmissionViewSet.get_queryset, SubmissionViewSet.queryset.
  rewrite filter_order_by_submitted_at_desc. split.
  - apply order_by_submitted_at_desc_perm.
  - apply order_by_submitted_at_desc_sorted.
Qed.

(** X10.  [latest] answers 404 exactly when the team has no submission; otherwise
    it shows a most recent submission of the team, the one a scrimmage of the
    team would be queued with. *)
Theorem latest_is_get_submission (db : DB) (league_id : Z) (team : Team) :
  SubmissionViewSet.latest db league_id team
  = match get_submission db (team_id team) with
    | None => reply_message HTTP_404_NOT_FOUND "Team does not have any submissions"
    | Some s => {| reply_status := HTTP_200_OK; reply_body := ReplyData s |}
    end
  /\ (reply_status (SubmissionViewSet.latest db league_id team) = HTTP_404_NOT_FOUND
      <-> forall x, x ∈ submissions db -> submission_team_id x <> team_id team)
  /\ (forall s,
        reply_body (SubmissionViewSet.latest db league_id team) = ReplyData s ->
        most_recent db (team_id team) s).
Proof.
  assert (SubmissionViewSet.latest db league_id team
          = match get_submission db (team_id team) with
            | None => reply_message HTTP_404_NOT_FOUND
                                    "Team does not have any submissions"
            | Some s => {| reply_status := HTTP_200_OK; reply_body := ReplyData s |}
            end) as Heq.
  { unfold SubmissionViewSet.latest, SubmissionViewSet.get_queryset,
      SubmissionViewSet.queryset, get_submission.
    rewrite filter_order_by_submitted_at_desc.
    now destruct (order_by_submitted_at_desc _). }
  split; [exact Heq|]. rewrite Heq. split.
  - rewrite <- get_submission_None.
    destruct (get_submission db (team_id team)); simpl; split;
      intros; reflexivity || discriminate.
  - intros s. destruct (get_submission db (team_id team)) as [s'|] eqn:E; simpl;
      [|discriminate].
    intros [= <-]. now apply get_submission_Some.
Qed.

(** ** MapViewSet *)








(** ** Permissions of the scrimmage views *)

(** The team [get_permissions] stores is the one team of the league that has
    the user. *)
Lemma get_permissions_team
  (db : DB) (request : Request) (league_id : Z) (kw : option Team) :
  ScrimmageViewSet.get_permissions db request league_id = Ok kw ->
  (exists lg, get_league db league_id = Some lg)
  /\ match kw, user request with
     | Some t, Some u =>
         teams_filter db league_id u = [t]
         /\ t ∈ teams db /\ team_league_id t = league_id /\ u ∈ users t
     | None, None => True
     | _, _ => False
     end.
Proof.
  unfold ScrimmageViewSet.get_permissions.
  destruct (get_league db league_id) as [lg|]; [|discriminate].
  destruct (_ && _); [discriminate|].
  intros Hperm. split; [now exists lg|].
  destruct (user request) as [u|]; simpl in Hperm.
  - destruct (get_team db league_id u) as [[t|]|] eqn:Hteam; simpl in Hperm;
      try discriminate.
    injection Hperm as <-.
    pose proof (get_team_Some db league_id u t Hteam) as (? & ? & ?).
    unfold get_team in Hteam.
    destruct (teams_filter db league_id u) as [|t1 [|t2 l]]; try discriminate.
    injection Hteam as ->. tauto.
  - now injection Hperm as <-.
Qed.

(** X12.  A request the scrimmage views admit is in a league that exists and, for
    an unsafe method, is active with submissions enabled; it carries the one
    team of the league that has the user, when there is a user; and the team
    views and the map views admit it too. *)
Theorem scrimmage_permissions_granted
  (db : DB) (request : Request) (league_id : Z) (kw : option Team) :
  ScrimmageViewSet.get_permissions db request league_id = Ok kw ->
  (exists lg, get_league db league_id = Some lg
              /\ (method request ∉ SAFE_METHODS ->
                  active lg = true /\ submissions_enabled lg = true))
  /\ TeamViewSet.get_permissions db request league_id = Ok tt
  /\ MapViewSet.get_permissions db request league_id = Ok tt
  /\ match kw, user request with
     | Some t, Some u =>
         teams_filter db league_id u = [t]
         /\ t ∈ teams db /\ team_league_id t = league_id /\ u ∈ users t
     | None, None => True
     | _, _ => False
     end.
Proof.
  intros Hperm.
  pose proof (get_permissions_team db request league_id kw Hperm) as ((lg & Hl) & Hkw).
  unfold ScrimmageViewSet.get_permissions in Hperm. rewrite Hl in Hperm.
  unfold TeamViewSet.get_permissions, MapViewSet.get_permissions. rewrite Hl.
  assert (method request ∉ SAFE_METHODS ->
          active lg = true /\ submissions_enabled lg = true) as Hflags.
  { intros Hunsafe. rewrite (bool_decide_eq_false_2 _ Hunsafe) in Hperm.
    destruct (active lg), (submissions_enabled lg); simpl in Hperm;
      try discriminate. tauto. }
  split; [exists lg; tauto|].
  split; [|split; [reflexivity | exact Hkw]].
  case_bool_decide as Hsafe; simpl; [reflexivity|].
  destruct (Hflags Hsafe) as [-> _]. reflexivity.
Qed.

Lemma scrimmage_permissions_granted_witness :
  ScrimmageViewSet.get_permissions db_pending patch_by_20 1 = Ok (Some team_B)
  /\ TeamViewSet.get_permissions db_pending patch_by_20 1 = Ok tt
  /\ MapViewSet.get_permissions db_pending patch_by_20 1 = Ok tt
  /\ teams_filter db_pending 1 20 = [team_B].
Proof.
  assert (ScrimmageViewSet.get_permissions db_pending patch_by_20 1 = Ok (Some team_B))
    as Hperm by reflexivity.
  split; [exact Hperm|].
  destruct (scrimmage_permissions_granted db_pending patch_by_20 1 (Some team_B) Hperm)
    as (_ & Hteam & Hmap & Hkw).
  split; [exact Hteam|]. split; [exact Hmap|]. exact (proj1 Hkw).
Defined.

(** X13.  A view runs only on behalf of the team of the user who sent the request;
    a request that is turned away changes nothing. *)
Theorem dispatch_runs_for_own_team
  (view : DB -> Z -> Team -> DB * Response)
  (db : DB) (request : Request) (league_id : Z) :
  match (dispatch view db request league_id).2 with
  | Ok r =>
      exists u team,
        user request = Some u /\ team ∈ teams db
        /\ team_league_id team = league_id /\ u ∈ users team
        /\ view db league_id team = ((dispatch view db request league_id).1, r)
  | Raise e =>
      (dispatch view db request league_id).1 = db
      /\ (e = NotFound <-> get_league db league_id = None)
      /\ (e = NotAuthenticated -> user request = None)
  end.
Proof.
  unfold dispatch.
  destruct (ScrimmageViewSet.get_permissions db request league_id) as [[team|]|e]
    eqn:Hperm; simpl.
  - pose proof (get_permissions_team db request league_id _ Hperm) as (_ & Hkw).
    destruct (user request) as [u|]; [|contradiction].
    destruct (view db league_id team) as [db' r] eqn:Hview. simpl.
    exists u, team. tauto.
  - pose proof (get_permissions_team db request league_id _ Hperm)
      as ((lg & Hl) & Hkw).
    destruct (user request) as [u|]; [contradiction|].
    split; [reflexivity|]. split; [|reflexivity].
    rewrite Hl. split; discriminate.
  - split; [reflexivity|].
    unfold ScrimmageViewSet.get_permissions in Hperm.
    destruct (get_league db league_id) as [lg|].
    + split; [split; [intros ->|discriminate]|intros ->]; exfalso.
      all: destruct (_ && _); [discriminate|].
      all: destruct (user request) as [u|]; [|discriminate].
      all: unfold get_team in Hperm.
      all: destruct (teams_filter db league_id u) as [|t1 [|t2 l]]; discriminate.
    + injection Hperm as <-. split; [tauto | discriminate].
Qed.

(** ** More on creating a scrimmage *)

Section CreateEdges.

Variable int : PyVal -> result Z.
Variable serializer_is_valid : DB -> ScrimmageInput -> bool.
Variables (db : DB) (request : Request) (league_id : Z) (team : Team).

(** X14.  Unless [create] answers 201 the database is as it was. *)
Theorem create_changes_nothing_unless_created :
  status_code (ScrimmageViewSet.create int serializer_is_valid db request league_id team).2
    <> HTTP_201_CREATED ->
  (ScrimmageViewSet.create int serializer_is_valid db request league_id team).1 = db.
Proof.
  unfold ScrimmageViewSet.create, create_body, bind.
  repeat case_match; simplify_eq; simpl; try reflexivity.
  all: intros Hcode; now destruct Hcode.
Qed.

(** X15.  The four fields are read in the order [red_team], [blue_team], [map],
    [ranked], the first three through [int].  When the fields read so far
    are present and accepted by [int], a field that is missing is answered
    400 with its name as the message, and a field that [int] refuses is
    answered 400 with the message of the exception; either comes before any
    look at the teams. *)
Theorem create_missing_field :
  (data request !! "red_team" = None ->
   ScrimmageViewSet.create int serializer_is_valid db request league_id team
   = (db, message HTTP_400_BAD_REQUEST "red_team"))
  /\ (forall red_id,
        bind (getitem request "red_team") int = Ok red_id ->
        data request !! "blue_team" = None ->
        ScrimmageViewSet.create int serializer_is_valid db request league_id team
        = (db, message HTTP_400_BAD_REQUEST "blue_team"))
  /\ (forall red_id blue_id,
        bind (getitem request "red_team") int = Ok red_id ->
        bind (getitem request "blue_team") int = Ok blue_id ->
        data request !! "map" = None ->
        ScrimmageViewSet.create int serializer_is_valid db request league_id team
        = (db, message HTTP_400_BAD_REQUEST "map"))
  /\ (forall red_id blue_id map_id,
        bind (getitem request "red_team") int = Ok red_id ->
        bind (getitem request "blue_team") int = Ok blue_id ->
        bind (getitem request "map") int = Ok map_id ->
        data request !! "ranked" = None ->
        ScrimmageViewSet.create int serializer_is_valid db request league_id team
        = (db, message HTTP_400_BAD_REQUEST "ranked"))
  /\ (forall v e,
        data request !! "red_team" = Some v -> int v = Raise e ->
        ScrimmageViewSet.create int serializer_is_valid db request league_id team
        = (db, message HTTP_400_BAD_REQUEST (exn_message e)))
  /\ (forall red_id v e,
        bind (getitem request "red_team") int = Ok red_id ->
        data request !! "blue_team" = Some v -> int v = Raise e ->
        ScrimmageViewSet.create int serializer_is_valid db request league_id team
        = (db, message HTTP_400_BAD_REQUEST (exn_message e)))
  /\ (forall red_id blue_id v e,
        bind (getitem request "red_team") int = Ok red_id ->
        bind (getitem request "blue_team") int = Ok blue_id ->
        data request !! "map" = Some v -> int v = Raise e ->
        ScrimmageViewSet.create int serializer_is_valid db request league_id team
        = (db, message HTTP_400_BAD_REQUEST (exn_message e))).
Proof.
  unfold ScrimmageViewSet.create, create_body.
  split; [intros H; unfold getitem at 1; now rewrite H|].
  split; [intros r -> H; simpl; unfold getitem at 1; now rewrite H|].
  split; [intros r b -> -> H; simpl; unfold getitem at 1; now rewrite H|].
  split; [intros r b m -> -> -> H; simpl; unfold getitem at 1; now rewrite H|].
  split; [intros v e H He; unfold getitem at 1; rewrite H; simpl; now rewrite He|].
  split; [intros r v e -> H He; simpl; unfold getitem at 1; rewrite H; simpl;
          now rewrite He|].
  intros r b v e -> -> H He; simpl; unfold getitem at 1; rewrite H; simpl;
    now rewrite He.
Qed.

(** X16.  A team can only request a scrimmage it takes part in. *)
Theorem create_needs_own_team (red_id blue_id map_id : Z) (ranked_v : PyVal) :
  bind (getitem request "red_team") int = Ok red_id ->
  bind (getitem request "blue_team") int = Ok blue_id ->
  bind (getitem request "map") int = Ok map_id ->
  data request !! "ranked" = Some ranked_v ->
  team_id team <> red_id -> team_id team <> blue_id ->
  ScrimmageViewSet.create int serializer_is_valid db request league_id team
  = (db, message HTTP_400_BAD_REQUEST "Scrimmage does not include my team").
Proof.
  intros Hr Hb Hm Hk Hnr Hnb. unfold ScrimmageViewSet.create, create_body.
  rewrite Hr, Hb, Hm. simpl. unfold getitem. rewrite Hk. simpl.
  now rewrite (bool_decide_eq_false_2 _ Hnb), (bool_decide_eq_false_2 _ Hnr).
Qed.

(** X17.  The scrimmage a successful [create] hands to the serializer is requested
    by the acting team, which is one of its two sides, in the league of the
    request, on a map of that league that is not hidden; both team ids of
    the request have a submission; and it is either queued with both
    submissions or has neither status nor submissions. *)
Theorem create_validates (db' : DB) (r : Response) :
  ScrimmageViewSet.create int serializer_is_valid db request league_id team = (db', r) ->
  status_code r = HTTP_201_CREATED ->
  exists d,
    r = {| status_code := HTTP_201_CREATED;
           body := ScrimmageData (fresh (dom (scrimmages db))) (new_row d) |}
    /\ serializer_is_valid db d = true
    /\ data_league d = league_id
    /\ data_requested_by d = team_id team
    /\ (data_red_team d = team_id team \/ data_blue_team d = team_id team)
    /\ (exists m, m ∈ maps db /\ map_pk m = data_map d /\ hidden m = false
                  /\ map_league_id m = league_id)
    /\ (data_status d = Some "queued" /\ is_Some (data_red_submission d)
          /\ is_Some (data_blue_submission d)
        \/ data_status d = None /\ data_red_submission d = None
          /\ data_blue_submission d = None)
    /\ teams db' = teams db /\ submissions db' = submissions db
    /\ maps db' = maps db /\ leagues db' = leagues db.
Proof.
  intros Hcreate Hcode.
  destruct (create_created int serializer_is_valid db request league_id team db' r
              Hcreate Hcode)
    as (red_v & blue_v & map_v & ranked_v & red_id & blue_id & map_id & that_team
        & m & rs & bs & d & _ & _ & _ & _ & _ & _ & _ & Hside & Hmap & _ & _
        & Hleague & Hdmap & _ & Hby & Hstatus & Hred & Hblue & Hvalid & -> & ->).
  exists d. repeat (split; [assumption || reflexivity|]).
  split; [destruct Hside as [(_ & _ & _ & ?) | (_ & _ & _ & ? & _)]; tauto|].
  split.
  { exists m. unfold get_map in Hmap.
    destruct (filter _ (maps db)) as [|x l] eqn:E; [discriminate|].
    injection Hmap as ->.
    assert (m ∈ m :: l) as Hin by (apply elem_of_cons; now left).
    rewrite <- E in Hin. apply list_elem_of_filter in Hin as [(? & ? & ?) ?].
    repeat split; congruence. }
  split; [|repeat split].
  rewrite Hstatus, Hred, Hblue. destruct (auto_accepts _ _); [left | right];
    repeat split; eexists; reflexivity.
Qed.

End CreateEdges.

(** Team 1 names team 2, which no user id leads to: nothing is stored. *)
Lemma create_changes_nothing_unless_created_witness :
  status_code (ScrimmageViewSet.create int_literal always_valid db_ids
                 (post_scrimmage 1 2 (PyStr "True")) 1 team_1).2 <> HTTP_201_CREATED
  /\ (ScrimmageViewSet.create int_literal always_valid db_ids
        (post_scrimmage 1 2 (PyStr "True")) 1 team_1).1 = db_ids.
Proof.
  assert (status_code (ScrimmageViewSet.create int_literal always_valid db_ids
                         (post_scrimmage 1 2 (PyStr "True")) 1 team_1).2
          <> HTTP_201_CREATED) as Hcode by (vm_compute; discriminate).
  split; [exact Hcode|].
  exact (create_changes_nothing_unless_created int_literal always_valid db_ids
           (post_scrimmage 1 2 (PyStr "True")) 1 team_1 Hcode).
Defined.

(** Team 1 requests a scrimmage between teams 2 and 3. *)
Lemma create_needs_own_team_witness :
  (team_id team_1 <> 2 /\ team_id team_1 <> 3)
  /\ ScrimmageViewSet.create int_literal always_valid db_ids
       (post_scrimmage 2 3 (PyStr "True")) 1 team_1
     = (db_ids, message HTTP_400_BAD_REQUEST "Scrimmage does not include my team").
Proof.
  split; [split; discriminate|].
  apply (create_needs_own_team int_literal always_valid db_ids
           (post_scrimmage 2 3 (PyStr "True")) 1 team_1 2 3 1 (PyStr "True"));
    reflexivity || discriminate.
Defined.

Lemma create_validates_witness :
  let request := post_scrimmage 1 3 (PyStr "True") in
  let result := ScrimmageViewSet.create int_literal always_valid db_ids request 1 team_1 in
  status_code result.2 = HTTP_201_CREATED
  /\ exists d,
       result.2 = {| status_code := HTTP_201_CREATED;
                     body := ScrimmageData (fresh (dom (scrimmages db_ids))) (new_row d) |}
       /\ data_league d = 1
       /\ data_requested_by d = team_id team_1
       /\ (data_red_team d = team_id team_1 \/ data_blue_team d = team_id team_1)
       /\ teams result.1 = teams db_ids.
Proof.
  intros request result.
  assert (status_code result.2 = HTTP_201_CREATED) as Hcode by reflexivity.
  split; [exact Hcode|].
  destruct (create_validates int_literal always_valid db_ids request 1 team_1
              result.1 result.2 (surjective_pairing result) Hcode)
    as (d & Hr & _ & Hleague & Hby & Hside & _ & _ & Hteams & _).
  exists d. repeat (split; [assumption|]). assumption.
Defined.

(** ** More on the transitions of a scrimmage *)


(** X19.  A team that takes no part in a scrimmage is told that the scrimmage does
    not exist, as for a key that is not in the table, whatever the status. *)
Theorem stranger_sees_no_scrimmage (db : DB) (league_id : Z) (team : Team) (pk : Z) :
  (forall s, scrimmages db !! pk = Some s ->
             red_team s <> team_id team /\ blue_team s <> team_id team) ->
  accept db league_id team pk
    = (db, message HTTP_404_NOT_FOUND "Scrimmage does not exist.")
  /\ reject db league_id team pk
    = (db, message HTTP_404_NOT_FOUND "Scrimmage does not exist.")
  /\ cancel db league_id team pk
    = (db, message HTTP_404_NOT_FOUND "Scrimmage does not exist.").
Proof.
  intros Hstranger.
  assert (ScrimmageViewSet.get_queryset db team !! pk = None) as Hnone.
  { destruct (ScrimmageViewSet.get_queryset db team !! pk) as [s|] eqn:E;
      [|reflexivity].
    apply get_queryset_lookup in E as [Hrow Hside].
    destruct (Hstranger s Hrow). tauto. }
  unfold accept, reject, cancel. now rewrite Hnone.
Qed.

(** X20.  Once [accept] has answered 200 the scrimmage is queued for good: every
    later accept, reject or cancel of it, by whatever team, fails and changes
    nothing. *)
Theorem queued_is_final (db : DB) (league_id : Z) (team : Team) (pk : Z) :
  status_code (accept db league_id team pk).2 = HTTP_200_OK ->
  let db' := (accept db league_id team pk).1 in
  (status <$> scrimmages db' !! pk) = Some "queued"
  /\ forall league_id' team',
       (accept db' league_id' team' pk).1 = db'
       /\ is_error (accept db' league_id' team' pk).2
       /\ (reject db' league_id' team' pk).1 = db'
       /\ is_error (reject db' league_id' team' pk).2
       /\ (cancel db' league_id' team' pk).1 = db'
       /\ is_error (cancel db' league_id' team' pk).2.
Proof.
  intros Hcode db'.
  assert (exists s', scrimmages db' !! pk = Some s' /\ status s' = "queued")
    as (s' & Hrow & Hstatus).
  { subst db'. unfold accept in *.
    destruct (ScrimmageViewSet.get_queryset db team !! pk) as [s|]; [|discriminate].
    repeat (case_bool_decide || case_match); simpl in *; try discriminate.
    eexists. split; [apply lookup_insert_eq | reflexivity]. }
  split; [now rewrite Hrow; simpl; rewrite Hstatus|].
  intros league_id' team'.
  assert (status s' <> "pending") as Hne by (rewrite Hstatus; discriminate).
  rewrite reject_db, cancel_db.
  rewrite (accept_cases db' league_id' team' pk s' Hrow),
    (reject_cases db' league_id' team' pk s' Hrow),
    (cancel_cases db' league_id' team' pk s' Hrow).
  rewrite (bool_decide_eq_false_2 _ Hne). unfold is_error.
  repeat case_bool_decide; simpl; repeat split; reflexivity || status_lia.
Qed.

(** Team 3 asks for scrimmage 7, which teams 1 and 2 play. *)
Lemma stranger_sees_no_scrimmage_witness :
  (forall s, scrimmages db_pending !! 7 = Some s ->
             red_team s <> team_id team_3 /\ blue_team s <> team_id team_3)
  /\ accept db_pending 1 team_3 7
     = (db_pending, message HTTP_404_NOT_FOUND "Scrimmage does not exist.").
Proof.
  assert (forall s, scrimmages db_pending !! 7 = Some s ->
                    red_team s <> team_id team_3 /\ blue_team s <> team_id team_3)
    as Hstranger.
  { intros s Hs.
    assert (scrimmages db_pending !! 7 = Some pending7) as Hrow by reflexivity.
    rewrite Hrow in Hs. injection Hs as <-. split; discriminate. }
  split; [exact Hstranger|].
  exact (proj1 (stranger_sees_no_scrimmage db_pending 1 team_3 7 Hstranger)).
Defined.

(** Team 2 accepts scrimmage 7; team 1 then tries to cancel it. *)
Lemma queued_is_final_witness :
  status_code (accept db_pending 1 team_B 7).2 = HTTP_200_OK
  /\ (status <$> scrimmages (accept db_pending 1 team_B 7).1 !! 7) = Some "queued"
  /\ (cancel (accept db_pending 1 team_B 7).1 1 team_R 7).1
     = (accept db_pending 1 team_B 7).1
  /\ is_error (cancel (accept db_pending 1 team_B 7).1 1 team_R 7).2.
Proof.
  assert (status_code (accept db_pending 1 team_B 7).2 = HTTP_200_OK) as Hcode
    by reflexivity.
  split; [exact Hcode|].
  destruct (queued_is_final db_pending 1 team_B 7 Hcode) as (Hqueued & Hfinal).
  split; [exact Hqueued|].
  destruct (Hfinal 1 team_R) as (_ & _ & _ & _ & Hdb & Herr).
  split; [exact Hdb | exact Herr].
Defined.

(** User 30 joins team 2: team 1 is as it was and user 20 is still on team 2. *)
Lemma partial_update_touches_only_requester_witness :
  (unique_ids db_teams
   /\ py_eq_str (data_get (join_request "key2") "op") "update" = false)
  /\ length (teams (partial_update_example db_teams (join_request "key2") 30 2).1)
     = length (teams db_teams)
  /\ forall i t, teams db_teams !! i = Some t ->
       exists t',
         teams (partial_update_example db_teams (join_request "key2") 30 2).1 !! i
         = Some t'
         /\ (team_id t <> 2 -> t' = t)
         /\ team_id t' = team_id t /\ team_league_id t' = team_league_id t
         /\ auto_accept_ranked t' = auto_accept_ranked t
         /\ auto_accept_unranked t' = auto_accept_unranked t
         /\ forall u, u <> 30 -> (u ∈ users t' <-> u ∈ users t).
Proof.
  pose proof db_teams_invariant as (Hids & _).
  split; [split; [exact Hids | reflexivity]|].
  exact (proj2 (partial_update_touches_only_requester key_of no_update db_teams
                  (join_request "key2") 30 1 2 Hids eq_refl)).
Defined.
